(** * The conversation layer of the feedback widget

    A shallow embedding of [src/conversationService.js] (the
    [ConversationService] class) and of the [useConversation] hook of
    [src/Widget.jsx], with the properties the specification states about
    them.

    Strings are sequences of UTF-16 code units, as in the language the
    widget is written in.  Asynchronous functions are programs over the
    effects the code performs (clock, random source, console, telemetry,
    [fetch], the hook's state setters); exceptions and [try]/[catch]/
    [finally] are part of the program type, so a function that swallows an
    error and one that lets it escape are different programs. *)

From Stdlib Require Import List ZArith NArith Lia Bool Ascii String.
From Stdlib Require Import DecimalString DecimalZ SpecFloat QArith.
From ExtLib Require Import Structures.Monad Structures.MonadExc.
Import ListNotations.

Local Open Scope N_scope.
Set Warnings "-register-all".

(** ** Strings *)

(** A string value: its UTF-16 code units. *)
Definition jsstring := list N.

(** A literal of the source, written with its (ASCII) characters. *)
Definition lit (s : string) : jsstring :=
  map N_of_ascii (list_ascii_of_string s).

(** [a + b] on strings and the pieces of a template literal. *)
Definition concat (a b : jsstring) : jsstring := (a ++ b)%list.

(** The decimal rendering of an integral number, as a template literal or
    [String(n)] produces it for the magnitudes involved (epoch
    milliseconds, HTTP statuses). *)
Definition decimal (z : Z) : jsstring :=
  lit (NilEmpty.string_of_int (Z.to_int z)).

(** [WhiteSpace] and [LineTerminator] code points, the ones
    [String.prototype.trim] strips. *)
Definition isWhiteSpace (c : N) : bool :=
  existsb (N.eqb c)
    [9; 10; 11; 12; 13; 32; 160; 5760; 8232; 8233; 8239; 8287; 12288; 65279]
  || ((8192 <=? c) && (c <=? 8202)).

Fixpoint trimStart (s : jsstring) : jsstring :=
  match s with
  | [] => []
  | c :: s' => if isWhiteSpace c then trimStart s' else s
  end.

Definition trimEnd (s : jsstring) : jsstring := rev (trimStart (rev s)).

Definition trim (s : jsstring) : jsstring := trimEnd (trimStart s).

(** A string is falsy exactly when it is empty. *)
Definition isEmpty (s : jsstring) : bool :=
  match s with [] => true | _ :: _ => false end.

Section CaseMapping.

(** [toLowerCase] maps the ASCII capitals to their small letters and
    leaves the rest of ASCII alone.  The mapping of the code units outside
    ASCII comes from the Unicode tables of the runtime; it is a parameter
    here.  One code unit may map to several (U+0130) or to an ASCII letter
    (U+212A). *)
Variable unicodeLower : N -> list N.

Definition lowerUnit (c : N) : list N :=
  if c <? 128
  then (if (65 <=? c) && (c <=? 90) then [c + 32] else [c])
  else unicodeLower c.

Definition toLowerCase (s : jsstring) : jsstring := flat_map lowerUnit s.

End CaseMapping.

(** [s.startsWith(p)] and [s.includes(k)] on code units. *)
Fixpoint startsWith (s p : jsstring) {struct p} : bool :=
  match p, s with
  | [], _ => true
  | _ :: _, [] => false
  | b :: p', a :: s' => (a =? b) && startsWith s' p'
  end.

Fixpoint includes (s k : jsstring) : bool :=
  startsWith s k ||
  match s with
  | [] => false
  | _ :: s' => includes s' k
  end.

(** ** The fixed texts of the service and of the hook *)

Module Reply.
Definition help : jsstring := lit
  "I'm here to help! I can assist you with technical issues, product questions, or general support. What would you like to know?".
Definition payment : jsstring := lit
  "I understand you're having payment issues. Let me help you troubleshoot. Can you tell me more about what's happening?".
Definition technical : jsstring := lit
  "I see you're experiencing an issue. I've detected some technical problems on this page. Let me help you resolve them.".
Definition feature : jsstring := lit
  "Thank you for your feature request! I'll make sure this gets to our development team. Can you provide more details?".
Definition bug : jsstring := lit
  "I'm sorry to hear you're experiencing a bug. Let me help you report this issue. Can you describe what happened?".
Definition generic : jsstring := lit
  "Thank you for your message. I'm here to help improve your experience. Is there anything specific you'd like to discuss?".
Definition couldNotProcess : jsstring := lit
  "I'm sorry, I couldn't process your request.".
Definition greeting : jsstring := lit
  "Hello! I'm your AI assistant. How can I help you today?".
Definition apology : jsstring := lit
  "I'm sorry, I'm having trouble connecting right now. Please try again in a moment.".
End Reply.

(** ** Values *)

(** The values a parsed response body is made of.  Numbers are IEEE 754
    binary64 values. *)
Inductive Json : Type :=
| JNull
| JBool (b : bool)
| JNum (x : spec_float)
| JStr (s : jsstring)
| JArr (items : list Json)
| JObj (fields : list (jsstring * Json)).

(** Truthiness, as [||] tests it. *)
Definition truthy (v : Json) : bool :=
  match v with
  | JNull => false
  | JBool b => b
  | JNum (S754_zero _) | JNum S754_nan => false
  | JNum _ => true
  | JStr s => negb (isEmpty s)
  | JArr _ | JObj _ => true
  end.

Definition jsstring_eqb (a b : jsstring) : bool :=
  if list_eq_dec N.eq_dec a b then true else false.

(** The member named [key] of an object; when the body repeated a name
    the last occurrence is the one the parsed object holds. *)
Fixpoint lookup (key : jsstring) (fields : list (jsstring * Json)) : option Json :=
  match fields with
  | [] => None
  | (k, v) :: rest =>
      match lookup key rest with
      | Some v' => Some v'
      | None => if jsstring_eqb k key then Some v else None
      end
  end.

(** What a [throw] carries: an error object with its name and message. *)
Record Exn : Type := mkExn { exn_name : jsstring; exn_message : jsstring }.

Definition newError (message : jsstring) : Exn := mkExn (lit "Error") message.
Definition newTypeError (message : jsstring) : Exn := mkExn (lit "TypeError") message.

(** The error of a member read on [null]. *)
Definition nullError (key : jsstring) : Exn :=
  newTypeError (concat (lit "Cannot read properties of null (reading '")
                       (concat key (lit "')"))).

(** [data.key] for the member names the service reads ([response],
    [message], [welcome_message], [pageType]): [undefined] ([None]) on a
    primitive, on an array and on an object without the member; a
    [TypeError] on [null]. *)
Definition getProp (data : Json) (key : jsstring) : Exn + option Json :=
  match data with
  | JNull => inl (nullError key)
  | JObj fields => inr (lookup key fields)
  | _ => inr None
  end.

(** [a || b] where [a] may be [undefined]. *)
Definition orElse (a : option Json) (b : Json) : Json :=
  match a with
  | Some v => if truthy v then v else b
  | None => b
  end.

(** [{...context, more}]: the own members of [context] followed by the
    added ones (which win on a repeated name). *)
Definition spread (context : Json) (more : list (jsstring * Json)) : Json :=
  match context with
  | JObj fields => JObj (fields ++ more)
  | _ => JObj more
  end.

(** A chat message of the hook's state. *)
Inductive MessageType : Type := user | ai.

Module Msg.
Record t : Type := make
  { id : Z; type : MessageType; content : Json; timestamp : jsstring }.
End Msg.

(** ** The outside world *)

(** A number of [[0,1)] as [Math.random] returns it, given by the digits
    after the point of its radix-36 rendering (no digit for 0). *)
Definition fraction36 := list N.

Record Request : Type := mkRequest
  { req_method : jsstring;
    req_url : jsstring;
    req_body : option Json   (* the payload handed to JSON.stringify *) }.

Record Response : Type := mkResponse
  { status : Z;
    body : Exn + Json   (* what [response.json()] settles to *) }.

(** [response.ok] *)
Definition ok (r : Response) : bool := (200 <=? status r)%Z && (status r <=? 299)%Z.

Inductive LogEntry : Type :=
| ConsoleError (label : jsstring) (error : Exn)
| LoggerInfo (message : jsstring)
| LoggerError (error : Exn) (message : jsstring)
| SentryCapture (error : Exn).

(** The effects of the code; the index is the type of the answer. *)
Inductive Eff : Type -> Type :=
| DateNow : Eff Z
| MathRandom : Eff fraction36
| Log (entry : LogEntry) : Eff unit
| SetMessages (update : list Msg.t -> list Msg.t) : Eff unit
| SetIsLoading (b : bool) : Eff unit
| SetConversationMode (b : bool) : Eff unit
| Fetch (r : Request) : Eff (Exn + Response).

(** Programs: return, throw, or perform an effect and go on. *)
Inductive Prog (A : Type) : Type :=
| Ret (a : A)
| Throw (e : Exn)
| Vis {X : Type} (e : Eff X) (k : X -> Prog A).

Arguments Ret {A} a.
Arguments Throw {A} e.
Arguments Vis {A X} e k.

Fixpoint bindProg {A B : Type} (p : Prog A) (f : A -> Prog B) : Prog B :=
  match p with
  | Ret a => f a
  | Throw e => Throw e
  | Vis e k => Vis e (fun x => bindProg (k x) f)
  end.

(** [try p catch (e) { h e }] *)
Fixpoint tryCatch {A : Type} (p : Prog A) (h : Exn -> Prog A) : Prog A :=
  match p with
  | Ret a => Ret a
  | Throw e => h e
  | Vis e k => Vis e (fun x => tryCatch (k x) h)
  end.

(** [try p finally { c }]: [c] runs on both exits; the result or the
    exception of [p] goes on unless [c] itself throws. *)
Fixpoint tryFinally {A : Type} (p : Prog A) (c : Prog unit) : Prog A :=
  match p with
  | Ret a => bindProg c (fun _ => Ret a)
  | Throw e => bindProg c (fun _ => Throw e)
  | Vis e k => Vis e (fun x => tryFinally (k x) c)
  end.

#[export] Instance Monad_Prog : Monad Prog :=
  {| ret := @Ret; bind := @bindProg |}.

#[export] Instance Exc_Prog : MonadExc Exn Prog :=
  {| raise := @Throw; catch := @tryCatch |}.

Import MonadNotation.
Local Open Scope monad_scope.

Definition trigger {X : Type} (e : Eff X) : Prog X := Vis e Ret.

(** [await p] for a promise that settled to [r]. *)
Definition await {A : Type} (r : Exn + A) : Prog A :=
  match r with
  | inl e => Throw e
  | inr a => Ret a
  end.

Definition fetch (r : Request) : Prog Response :=
  x <- trigger (Fetch r) ;; await x.

(** The answers of the environment: the successive readings of the clock
    and of the random source, and what each [fetch] settles to. *)
Record Oracle : Type := mkOracle
  { clock : nat -> Z;
    random : nat -> fraction36;
    network : nat -> Exn + Response }.

Record World : Type := mkWorld
  { messages : list Msg.t;
    isLoading : bool;
    conversationMode : bool;
    requests : list Request;
    log : list LogEntry;
    clockReads : nat;
    randomReads : nat }.

Definition perform (o : Oracle) {X : Type} (e : Eff X) (w : World) : World * X :=
  match e in Eff X return World * X with
  | DateNow =>
      (mkWorld (messages w) (isLoading w) (conversationMode w) (requests w) (log w)
               (S (clockReads w)) (randomReads w),
       clock o (clockReads w))
  | MathRandom =>
      (mkWorld (messages w) (isLoading w) (conversationMode w) (requests w) (log w)
               (clockReads w) (S (randomReads w)),
       random o (randomReads w))
  | Log entry =>
      (mkWorld (messages w) (isLoading w) (conversationMode w) (requests w)
               (log w ++ [entry]) (clockReads w) (randomReads w), tt)
  | SetMessages update =>
      (mkWorld (update (messages w)) (isLoading w) (conversationMode w) (requests w)
               (log w) (clockReads w) (randomReads w), tt)
  | SetIsLoading b =>
      (mkWorld (messages w) b (conversationMode w) (requests w)
               (log w) (clockReads w) (randomReads w), tt)
  | SetConversationMode b =>
      (mkWorld (messages w) (isLoading w) b (requests w)
               (log w) (clockReads w) (randomReads w), tt)
  | Fetch r =>
      (mkWorld (messages w) (isLoading w) (conversationMode w) (requests w ++ [r])
               (log w) (clockReads w) (randomReads w),
       network o (List.length (requests w)))
  end.

(** A program run to its end: the world it leaves and how it settled. *)
Fixpoint run {A : Type} (o : Oracle) (p : Prog A) (w : World) : World * (Exn + A) :=
  match p with
  | Ret a => (w, inr a)
  | Throw e => (w, inl e)
  | Vis e k => let (w', x) := perform o e w in run o (k x) w'
  end.

Definition pendingFetch {X : Type} (e : Eff X) : option Request :=
  match e with
  | Fetch r => Some r
  | _ => None
  end.

(** A program run up to its first suspension: the world at the moment the
    first [fetch] is about to be issued, with that request; or the world at
    the end when the program never reaches the network. *)
Fixpoint runSync {A : Type} (o : Oracle) (p : Prog A) (w : World) : World * option Request :=
  match p with
  | Ret _ | Throw _ => (w, None)
  | Vis e k =>
      match pendingFetch e with
      | Some r => (w, Some r)
      | None => let (w', x) := perform o e w in runSync o (k x) w'
      end
  end.

(** ** The runtime the widget is loaded in *)

Record Runtime : Type := mkRuntime
  { unicodeLower : N -> list N;     (* case mapping outside ASCII *)
    toISOString : Z -> jsstring;    (* new Date(t).toISOString() *)
    userAgent : jsstring;           (* navigator.userAgent *)
    href : jsstring;                (* window.location.href *)
    apiUrl : option jsstring        (* process.env.REACT_APP_LANGGRAPH_API_URL *) }.

(** [n.toString(36)] for a number of [[0,1)]. *)
Definition digitChar (d : N) : N := if d <? 10 then 48 + d else 87 + d.

Definition toString36 (r : fraction36) : jsstring :=
  match r with
  | [] => lit "0"
  | _ :: _ => concat (lit "0.") (map digitChar r)
  end.

(** [s.substr(start, len)] for a start inside the non-negative range. *)
Definition substr (s : jsstring) (start len : nat) : jsstring :=
  firstn len (skipn start s).

(** The number a digit sequence stands for. *)
Fixpoint fractionValue (r : fraction36) : Q :=
  match r with
  | [] => 0%Q
  | d :: r' => ((inject_Z (Z.of_N d) + fractionValue r') / 36)%Q
  end.

(** ** [ConversationService] ([src/conversationService.js]) *)

Module ConversationService.

(** An instance: the fields the constructor sets. *)
Record instance : Type := make { baseUrl : jsstring; sessionId : jsstring }.

Section Methods.

Variable rt : Runtime.

Definition generateSessionId : Prog jsstring :=
  now <- trigger DateNow ;;
  r <- trigger MathRandom ;;
  ret (concat (lit "session_")
         (concat (decimal now) (concat (lit "_") (substr (toString36 r) 2 9)))).

Definition constructor : Prog instance :=
  let url := match apiUrl rt with
             | Some u => if isEmpty u then lit "http://localhost:8000" else u
             | None => lit "http://localhost:8000"
             end in
  sid <- generateSessionId ;;
  ret (make url sid).

Definition getFallbackResponse (message : jsstring) : jsstring :=
  let lowerMessage := toLowerCase (unicodeLower rt) message in
  if includes lowerMessage (lit "help") || includes lowerMessage (lit "support")
  then Reply.help
  else if includes lowerMessage (lit "payment") || includes lowerMessage (lit "billing")
  then Reply.payment
  else if includes lowerMessage (lit "error") || includes lowerMessage (lit "problem")
  then Reply.technical
  else if includes lowerMessage (lit "feature") || includes lowerMessage (lit "request")
  then Reply.feature
  else if includes lowerMessage (lit "bug") || includes lowerMessage (lit "issue")
  then Reply.bug
  else Reply.generic.

Variable this : instance.

(** [{...context, timestamp, user_agent, url}] *)
Definition enrich (context : Json) (now : Z) : Json :=
  spread context
    [ (lit "timestamp", JStr (toISOString rt now));
      (lit "user_agent", JStr (userAgent rt));
      (lit "url", JStr (href rt)) ].

Definition post (path : jsstring) (payload : Json) : Prog Response :=
  fetch (mkRequest (lit "POST") (concat (baseUrl this) path) (Some payload)).

(** [a || b], [b] evaluated only when needed. *)
Definition orElseM (a : option Json) (b : Prog Json) : Prog Json :=
  match a with
  | Some v => if truthy v then ret v else b
  | None => b
  end.

Definition httpError (response : Response) : Exn :=
  newError (concat (lit "HTTP error! status: ") (decimal (status response))).

Definition sendMessage (message : jsstring) (context : Json) : Prog Json :=
  catch
    (now <- trigger DateNow ;;
     let payload :=
       JObj [ (lit "message", JStr message);
              (lit "session_id", JStr (sessionId this));
              (lit "context", enrich context now) ] in
     trigger (Log (LoggerInfo (lit "Sending message to LangGraph"))) ;;
     response <- post (lit "/chat") payload ;;
     if negb (ok response)
     then raise (httpError response)
     else
       data <- await (body response) ;;
       trigger (Log (LoggerInfo (lit "Received response from LangGraph"))) ;;
       r <- await (getProp data (lit "response")) ;;
       orElseM r
         (m <- await (getProp data (lit "message")) ;;
          ret (orElse m (JStr Reply.couldNotProcess))))
    (fun error =>
       trigger (Log (ConsoleError (lit "Error sending message to LangGraph:") error)) ;;
       trigger (Log (LoggerError error (lit "Failed to send message to LangGraph"))) ;;
       (* Fallback response *)
       ret (JStr (getFallbackResponse message))).

Definition startConversation (context : Json) : Prog Json :=
  catch
    (now <- trigger DateNow ;;
     let payload :=
       JObj [ (lit "action", JStr (lit "start_conversation"));
              (lit "session_id", JStr (sessionId this));
              (lit "context", enrich context now) ] in
     response <- post (lit "/conversation/start") payload ;;
     if negb (ok response)
     then raise (httpError response)
     else
       data <- await (body response) ;;
       w <- await (getProp data (lit "welcome_message")) ;;
       ret (orElse w (JStr Reply.greeting)))
    (fun error =>
       trigger (Log (ConsoleError (lit "Error starting conversation:") error)) ;;
       ret (JStr Reply.greeting)).

Definition endConversation : Prog unit :=
  catch
    (now <- trigger DateNow ;;
     let payload :=
       JObj [ (lit "action", JStr (lit "end_conversation"));
              (lit "session_id", JStr (sessionId this));
              (lit "timestamp", JStr (toISOString rt now)) ] in
     _ <- post (lit "/conversation/end") payload ;;
     ret tt)
    (fun error =>
       trigger (Log (ConsoleError (lit "Error ending conversation:") error))).

Definition clearConversation : Prog unit :=
  catch
    (now <- trigger DateNow ;;
     let payload :=
       JObj [ (lit "action", JStr (lit "clear_conversation"));
              (lit "session_id", JStr (sessionId this));
              (lit "timestamp", JStr (toISOString rt now)) ] in
     _ <- post (lit "/conversation/clear") payload ;;
     ret tt)
    (fun error =>
       trigger (Log (ConsoleError (lit "Error clearing conversation:") error))).

(** Method to get conversation history *)
Definition getConversationHistory : Prog Json :=
  catch
    (response <- fetch (mkRequest (lit "GET")
                          (concat (baseUrl this)
                             (concat (lit "/conversation/history/") (sessionId this)))
                          None) ;;
     if negb (ok response)
     then raise (httpError response)
     else
       data <- await (body response) ;;
       m <- await (getProp data (lit "messages")) ;;
       ret (orElse m (JArr [])))
    (fun error =>
       trigger (Log (ConsoleError (lit "Error getting conversation history:") error)) ;;
       ret (JArr [])).

End Methods.

End ConversationService.

(** The rule table of the fallback responder as the specification words
    it: an ordered list of keyword groups, each with its reply; the first
    group one of whose keywords occurs in the lower-cased message decides,
    and the generic reply is for a message that matches none. *)
Definition ruleTable : list (list jsstring * jsstring) :=
  [ ([lit "help"; lit "support"], Reply.help);
    ([lit "payment"; lit "billing"], Reply.payment);
    ([lit "error"; lit "problem"], Reply.technical);
    ([lit "feature"; lit "request"], Reply.feature);
    ([lit "bug"; lit "issue"], Reply.bug) ].

Definition ruleMatches (rt : Runtime) (message : jsstring)
    (rule : list jsstring * jsstring) : bool :=
  existsb (includes (toLowerCase (unicodeLower rt) message)) (fst rule).

Definition firstMatch (rt : Runtime) (message : jsstring) : jsstring :=
  match find (ruleMatches rt message) ruleTable with
  | Some rule => snd rule
  | None => Reply.generic
  end.

(** ** The [useConversation] hook ([src/Widget.jsx]) *)

Module useConversation.

Section Hook.

Variable rt : Runtime.

(** The module-level singleton the hook calls. *)
Variable conversationService : ConversationService.instance.

(** [context?.pageType || "general"] *)
Definition pageTypeOf (context : Json) : Json :=
  match context with
  | JObj fields => orElse (lookup (lit "pageType") fields) (JStr (lit "general"))
  | _ => JStr (lit "general")
  end.

Definition messageContextOf (context errors : Json) : Json :=
  JObj [ (lit "pageType", pageTypeOf context);
         (lit "errors", if truthy errors then errors else JArr []);
         (lit "url", JStr (href rt));
         (lit "userAgent", JStr (userAgent rt)) ].

(** [{ id: Date.now() + offset, type, content, timestamp: new Date().toISOString() }] *)
Definition newMessage (offset : Z) (type : MessageType) (content : Json) : Prog Msg.t :=
  now <- trigger DateNow ;;
  stamp <- trigger DateNow ;;
  ret (Msg.make (now + offset) type content (toISOString rt stamp)).

(** The [try] block of [sendMessage]. *)
Definition sendMessage_try (content : jsstring) (context errors : Json) : Prog unit :=
  (* Use the conversation service to send message to LangGraph backend *)
  let messageContext := messageContextOf context errors in
  response <- ConversationService.sendMessage rt conversationService
                content messageContext ;;
  aiMessage <- newMessage 1 ai response ;;
  trigger (SetMessages (fun prev => prev ++ [aiMessage])).

(** The [catch] block of [sendMessage]. *)
Definition sendMessage_catch (error : Exn) : Prog unit :=
  trigger (Log (ConsoleError (lit "Error sending message:") error)) ;;
  trigger (Log (SentryCapture error)) ;;
  (* Add error message to conversation *)
  errorMessage <- newMessage 1 ai (JStr Reply.apology) ;;
  trigger (SetMessages (fun prev => prev ++ [errorMessage])).

Definition sendMessage (content : jsstring) (context errors : Json) : Prog unit :=
  if isEmpty (trim content) then ret tt
  else
    userMessage <- newMessage 0 user (JStr content) ;;
    trigger (SetMessages (fun prev => prev ++ [userMessage])) ;;
    trigger (SetIsLoading true) ;;
    tryFinally
      (catch (sendMessage_try content context errors) sendMessage_catch)
      (trigger (SetIsLoading false)).

Definition startConversation (context errors : Json) : Prog unit :=
  tryFinally
    (catch
       (trigger (SetIsLoading true) ;;
        let messageContext := messageContextOf context errors in
        welcomeMessage <- ConversationService.startConversation rt conversationService
                            messageContext ;;
        aiMessage <- newMessage 0 ai welcomeMessage ;;
        trigger (SetMessages (fun _ => [aiMessage])) ;;
        trigger (SetConversationMode true))
       (fun error =>
          trigger (Log (ConsoleError (lit "Error starting conversation:") error)) ;;
          trigger (Log (SentryCapture error))))
    (trigger (SetIsLoading false)).

Definition clearConversation : Prog unit :=
  catch
    (ConversationService.clearConversation rt conversationService ;;
     trigger (SetMessages (fun _ => [])))
    (fun error =>
       trigger (Log (ConsoleError (lit "Error clearing conversation:") error)) ;;
       (* Still clear local messages even if backend call fails *)
       trigger (SetMessages (fun _ => []))).

Definition endConversation : Prog unit :=
  catch
    (ConversationService.endConversation rt conversationService)
    (fun error =>
       trigger (Log (ConsoleError (lit "Error ending conversation:") error))).

(** What the presentation layer may call on the hook. *)
Inductive Call : Type :=
| CallSendMessage (content : jsstring) (context errors : Json)
| CallStartConversation (context errors : Json)
| CallClearConversation
| CallEndConversation
| CallSetConversationMode (b : bool).

Definition call (c : Call) : Prog unit :=
  match c with
  | CallSendMessage content context errors => sendMessage content context errors
  | CallStartConversation context errors => startConversation context errors
  | CallClearConversation => clearConversation
  | CallEndConversation => endConversation
  | CallSetConversationMode b => trigger (SetConversationMode b)
  end.

(** Calls made one after the other, each settled before the next. *)
Definition runCalls (o : Oracle) (calls : list Call) (w : World) : World :=
  fold_left (fun w c => fst (run o (call c) w)) calls w.

End Hook.

(** Mounting the hook: [useState([])], [useState(false)],
    [useState(false)]; the rest of the world is as it was. *)
Definition mount (w : World) : World :=
  mkWorld [] false false (requests w) (log w) (clockReads w) (randomReads w).

(** A hook mounted in a world where nothing was issued, logged or read. *)
Definition initial : World := mount (mkWorld [] false false [] [] 0 0).

End useConversation.

(** ** Concrete inputs for the examples *)

Module Example.

(** A runtime with no case mapping outside ASCII; instants are printed
    as their millisecond count. *)
Definition runtime : Runtime :=
  mkRuntime (fun c => [c]) decimal (lit "Mozilla/5.0") (lit "http://localhost:3000/pay") None.

Definition service : ConversationService.instance :=
  ConversationService.make (lit "http://localhost:8000") (lit "session_1700000000000_k2j8x01ab").

Definition clockFrom (start : Z) (n : nat) : Z := (start + Z.of_nat n)%Z.

(** Every request is answered by [response]. *)
Definition answering (response : Response) : Oracle :=
  mkOracle (clockFrom 1700000000000) (fun _ => [18]) (fun _ => inr response).

(** Every request is rejected: the network is unreachable. *)
Definition offline : Oracle :=
  mkOracle (clockFrom 1700000000000) (fun _ => [18])
    (fun _ => inl (newTypeError (lit "Failed to fetch"))).

(** Calls that fall in one millisecond; the draws differ from call to
    call, in their tenth digit. *)
Definition sameMillisecond : Oracle :=
  mkOracle (fun _ => 1700000000000%Z)
    (fun n => [1; 2; 3; 4; 5; 6; 7; 8; 9; 10 + N.of_nat n])
    (fun _ => inl (newTypeError (lit "Failed to fetch"))).

(** The random source returns 0.5. *)
Definition drawHalf : Oracle :=
  mkOracle (fun _ => 1700000000000%Z) (fun _ => [18])
    (fun _ => inl (newTypeError (lit "Failed to fetch"))).

Definition http500 : Response :=
  mkResponse 500 (inr (JObj [(lit "detail", JStr (lit "Internal Server Error"))])).

Definition http200 (data : Json) : Response := mkResponse 200 (inr data).

End Example.

(** ** The [Widget] component and its utilities ([src/Widget.jsx]) *)

(** What the utilities read of the page, and the [Date] constructor of the
    runtime: the instant [new Date(v)] stands for ([v] absent for
    [undefined]), or nothing for an invalid date. *)
Record Page : Type := mkPage
  { title : jsstring;               (* document.title *)
    pathname : jsstring;            (* window.location.pathname *)
    searchParams : Json;            (* Object.fromEntries(new URLSearchParams(window.location.search)) *)
    dateValue : option Json -> option Z }.

(** [new Date(t)] for a number: an instant within the range of dates. *)
Definition timeClip (t : Z) : option Z :=
  if (Z.abs t <=? 8640000000000000)%Z then Some t else None.

(** [a === "s"] where [a] may be [undefined]. *)
Definition strictEq (a : option Json) (s : jsstring) : bool :=
  match a with
  | Some (JStr t) => jsstring_eqb t s
  | _ => false
  end.

(** [String(error)] *)
Definition errorToString (e : Exn) : jsstring :=
  if isEmpty (exn_name e) then exn_message e
  else if isEmpty (exn_message e) then exn_name e
  else concat (exn_name e) (concat (lit ": ") (exn_message e)).

Record KeyEvent : Type := mkKeyEvent
  { key : jsstring; shiftKey : bool; value : jsstring }.

(** What a key handler did: whether it called [preventDefault], the text
    it leaves in the input, and the call it started. *)
Record Handled : Type := mkHandled
  { defaultPrevented : bool; newValue : jsstring; started : Prog unit }.

Module Widget.

Section Component.

Variable rt : Runtime.
Variable page : Page.
Variable conversationService : ConversationService.instance.

(** Context detection utilities *)
Definition detectPageContext : Prog Json :=
  now <- trigger DateNow ;;
  let context :=
    [ (lit "url", JStr (href rt));
      (lit "title", JStr (title page));
      (lit "pathname", JStr (pathname page));
      (lit "searchParams", searchParams page);
      (lit "userAgent", JStr (userAgent rt));
      (lit "timestamp", JStr (toISOString rt now)) ] in
  (* Detect common page types *)
  let pageType :=
    if includes (pathname page) (lit "/payment") || includes (pathname page) (lit "/checkout")
    then lit "payment"
    else if includes (pathname page) (lit "/account") || includes (pathname page) (lit "/profile")
    then lit "account"
    else if includes (pathname page) (lit "/support") || includes (pathname page) (lit "/help")
    then lit "support"
    else lit "general" in
  ret (JObj (context ++ [(lit "pageType", JStr pageType)])).

(** The entries the handlers installed by [detectErrors] push on the
    [errors] array. *)
Definition consoleErrorEntry (label : jsstring) (error : Exn) (now : Z) : Json :=
  JObj [ (lit "type", JStr (lit "console_error"));
         (lit "message", JStr (concat label (concat (lit " ") (errorToString error))));
         (lit "timestamp", JStr (toISOString rt now)) ].

Definition networkErrorEntry (error : Exn) (url : jsstring) (now : Z) : Json :=
  JObj [ (lit "type", JStr (lit "network_error"));
         (lit "message", JStr (exn_message error));
         (lit "url", JStr url);
         (lit "timestamp", JStr (toISOString rt now)) ].

Definition jsErrorEntry (message filename : jsstring) (lineno colno : Json) (now : Z) : Json :=
  JObj [ (lit "type", JStr (lit "js_error"));
         (lit "message", JStr message);
         (lit "filename", JStr filename);
         (lit "lineno", lineno);
         (lit "colno", colno);
         (lit "timestamp", JStr (toISOString rt now)) ].

(** The array [detectErrors] returns, as it is when it returns. *)
Definition detectErrors : list Json := [].

(** An effect performed once [detectErrors] has replaced [console.error]
    and [window.fetch]: the second component is the [errors] array, which
    the widget state and the handlers share.  The replaced [console.error]
    pushes its entry and then calls the original; the replaced [fetch]
    calls the original and pushes an entry when it rejects, then throws
    the same error. *)
Definition performDetecting (o : Oracle) {X : Type} (e : Eff X) (s : World * list Json)
  : (World * list Json) * X :=
  match e in Eff X return (World * list Json) * X with
  | Log (ConsoleError label error) =>
      let (w1, now) := perform o DateNow (fst s) in
      let (w2, x) := perform o (Log (ConsoleError label error)) w1 in
      ((w2, snd s ++ [consoleErrorEntry label error now]), x)
  | Fetch r =>
      let (w1, answer) := perform o (Fetch r) (fst s) in
      match answer with
      | inl error =>
          let (w2, now) := perform o DateNow w1 in
          ((w2, snd s ++ [networkErrorEntry error (req_url r) now]), answer)
      | inr _ => ((w1, snd s), answer)
      end
  | e' => let (w1, x) := perform o e' (fst s) in ((w1, snd s), x)
  end.

Fixpoint runDetecting {A : Type} (o : Oracle) (p : Prog A) (s : World * list Json)
  : (World * list Json) * (Exn + A) :=
  match p with
  | Ret a => (s, inr a)
  | Throw e => (s, inl e)
  | Vis e k => let (s', x) := performDetecting o e s in runDetecting o (k x) s'
  end.

(** [errors.filter((error) => new Date(error.timestamp) > new Date(Date.now() - 60000))] *)
Fixpoint recentErrors (errors : list Json) : Prog (list Json) :=
  match errors with
  | [] => ret []
  | error :: rest =>
      stamp <- await (getProp error (lit "timestamp")) ;;
      now <- trigger DateNow ;;
      let keep :=
        match dateValue page stamp, timeClip (now - 60000) with
        | Some t, Some limit => (limit <? t)%Z
        | _, _ => false
        end in
      kept <- recentErrors rest ;;
      ret (if keep then error :: kept else kept)
  end.

Definition paymentSuggestions : list jsstring :=
  [ lit "Having trouble with your payment?";
    lit "Payment method not working?";
    lit "Need help with billing information?" ].

Definition accountSuggestions : list jsstring :=
  [ lit "Account access issues?";
    lit "Profile update problems?";
    lit "Security concerns?" ].

Definition supportSuggestions : list jsstring :=
  [ lit "Couldn't find what you're looking for?";
    lit "Need more specific help?";
    lit "Want to report a bug?" ].

Definition errorSuggestions : list jsstring :=
  [ lit "Experiencing technical issues?";
    lit "Page not loading correctly?";
    lit "Something not working as expected?" ].

Definition defaultSuggestions : list jsstring :=
  [ lit "How can we improve this page?";
    lit "Found a bug or issue?";
    lit "Have a feature request?";
    lit "General feedback?" ].

Definition getContextualSuggestions (context : Json) (errors : list Json)
  : Prog (list jsstring) :=
  pageType <- await (getProp context (lit "pageType")) ;;
  (* Page-specific suggestions *)
  let suggestions :=
    if strictEq pageType (lit "payment") then paymentSuggestions
    else if strictEq pageType (lit "account") then accountSuggestions
    else if strictEq pageType (lit "support") then supportSuggestions
    else [] in
  (* Error-based suggestions *)
  suggestions <-
    match errors with
    | [] => ret suggestions
    | _ :: _ =>
        recent <- recentErrors errors ;;
        ret (match recent with
             | [] => suggestions
             | _ :: _ => suggestions ++ errorSuggestions
             end)
    end ;;
  (* Default suggestions *)
  ret (match suggestions with
       | [] => defaultSuggestions
       | _ :: _ => suggestions
       end).

(** The effect run at mount: what it sets [context], [errors] and
    [suggestions] to, when context detection is enabled. *)
Definition detectContextEffect (enableContextDetection : bool)
  : Prog (option (Json * list Json * list jsstring)) :=
  if enableContextDetection then
    (* Detect initial context *)
    pageContext <- detectPageContext ;;
    (* Detect errors *)
    let detectedErrors := detectErrors in
    (* Generate contextual suggestions *)
    contextualSuggestions <- getContextualSuggestions pageContext detectedErrors ;;
    (* Log context for debugging *)
    trigger (Log (LoggerInfo (lit "Widget context detected"))) ;;
    ret (Some (pageContext, detectedErrors, contextualSuggestions))
  else ret None.

(** Auto-start conversation when switching to conversation view: the
    effect, run with the state of the render [w]. *)
Definition autoStartEffect (currentView : jsstring) (context errors : Json) (w : World)
  : Prog unit :=
  if jsstring_eqb currentView (lit "conversation")
     && (List.length (messages w) =? 0)%nat
     && negb (isLoading w)
  then useConversation.startConversation rt conversationService context errors
  else ret tt.

(** [prev + (prev ? "\n\n" : "") + suggestion] *)
Definition handleSuggestionClick (prev suggestion : jsstring) : jsstring :=
  concat (concat prev (if isEmpty prev then [] else [10; 10])) suggestion.

Definition handleConversationInput (e : KeyEvent) (context errors : Json) : Handled :=
  if jsstring_eqb (key e) (lit "Enter") && negb (shiftKey e) then
    let message := trim (value e) in
    if negb (isEmpty message)
    then mkHandled true []
           (useConversation.sendMessage rt conversationService message context errors)
    else mkHandled true (value e) (ret tt)
  else mkHandled false (value e) (ret tt).

End Component.

End Widget.

(** ** The earlier revision of the hook ([src/unnamed/part_001]) *)

Module EarlierWidget.

Section Hook.

Variable rt : Runtime.
Variable conversationService : ConversationService.instance.

(** [simulateAIResponse] declares [const context = { pageType:
    context?.pageType || "general", errors: errors || [], ... }]: the
    initializer reads the constant it is declaring, which throws a
    [ReferenceError]; the function being [async] the error is the
    rejection of its promise, and the call of the service that follows is
    not reached. *)
Definition simulateAIResponse (userInput : jsstring) : Prog Json :=
  raise (mkExn (lit "ReferenceError")
               (lit "Cannot access 'context' before initialization")).

Definition sendMessage (content : jsstring) : Prog unit :=
  if isEmpty (trim content) then ret tt
  else
    userMessage <- useConversation.newMessage rt 0 user (JStr content) ;;
    trigger (SetMessages (fun prev => prev ++ [userMessage])) ;;
    trigger (SetIsLoading true) ;;
    tryFinally
      (catch
         (response <- simulateAIResponse content ;;
          aiMessage <- useConversation.newMessage rt 1 ai response ;;
          trigger (SetMessages (fun prev => prev ++ [aiMessage])))
         (fun error =>
            trigger (Log (ConsoleError (lit "Error sending message:") error)) ;;
            trigger (Log (SentryCapture error))))
      (trigger (SetIsLoading false)).

Definition clearConversation : Prog unit :=
  trigger (SetMessages (fun _ => [])).

Definition handleConversationInput (e : KeyEvent) : Handled :=
  if jsstring_eqb (key e) (lit "Enter") && negb (shiftKey e)
  then mkHandled true [] (sendMessage (value e))
  else mkHandled false (value e) (ret tt).

End Hook.

End EarlierWidget.

(** ** What a session sends *)

(** The world after a [fetch] that read no clock: [request] issued,
    [entries] logged. *)
Definition afterFetch (w : World) (request : Request) (entries : list LogEntry) : World :=
  mkWorld (messages w) (isLoading w) (conversationMode w) (requests w ++ [request])
          (log w ++ entries) (clockReads w) (randomReads w).

Definition historyRequest (this : ConversationService.instance) : Request :=
  mkRequest (lit "GET")
    (concat (ConversationService.baseUrl this)
       (concat (lit "/conversation/history/") (ConversationService.sessionId this)))
    None.

(** The history taken from a parsed body. *)
Definition historyOfBody (data : Json) : Json :=
  match data with
  | JObj fields => orElse (lookup (lit "messages") fields) (JArr [])
  | _ => JArr []
  end.

Definition historyOutcome (answer : Exn + Response) : list LogEntry * Json :=
  let failed e :=
    ([ConsoleError (lit "Error getting conversation history:") e], JArr []) in
  match answer with
  | inl e => failed e
  | inr response =>
      if ok response then
        match body response with
        | inl e => failed e
        | inr JNull => failed (nullError (lit "messages"))
        | inr data => ([], historyOfBody data)
        end
      else failed (ConversationService.httpError response)
  end.

(** A request names the session: in the [session_id] member of its
    payload. *)
Definition carriesSession (sid : jsstring) (r : Request) : bool :=
  match req_body r with
  | Some (JObj fields) =>
      match lookup (lit "session_id") fields with
      | Some (JStr s) => jsstring_eqb s sid
      | _ => false
      end
  | _ => false
  end.

(** The path a call of the hook posts to, when it reaches the service. *)
Definition pathOf (c : useConversation.Call) : option jsstring :=
  match c with
  | useConversation.CallSendMessage content _ _ =>
      if isEmpty (trim content) then None else Some (lit "/chat")
  | useConversation.CallStartConversation _ _ => Some (lit "/conversation/start")
  | useConversation.CallClearConversation => Some (lit "/conversation/clear")
  | useConversation.CallEndConversation => Some (lit "/conversation/end")
  | useConversation.CallSetConversationMode _ => None
  end.

Definition urlsOf (this : ConversationService.instance)
    (calls : list useConversation.Call) : list jsstring :=
  flat_map (fun c => match pathOf c with
                     | Some path => [concat (ConversationService.baseUrl this) path]
                     | None => []
                     end) calls.

Definition isUser (m : Msg.t) : bool :=
  match Msg.type m with user => true | ai => false end.

Definition isAi (m : Msg.t) : bool :=
  match Msg.type m with ai => true | user => false end.

(** The content is a string that is not blank. *)
Definition nonBlank (v : Json) : bool :=
  match v with
  | JStr s => negb (isEmpty (trim s))
  | _ => false
  end.

(** A sequence of exchanges: a user message with a content that is not
    blank, then an assistant message with a truthy content, and so on. *)
Fixpoint exchanges (l : list Msg.t) : bool :=
  match l with
  | [] => true
  | u :: a :: rest =>
      isUser u && nonBlank (Msg.content u)
      && isAi a && truthy (Msg.content a) && exchanges rest
  | _ => false
  end.

(** A transcript: exchanges, after a welcome message or not. *)
Definition transcript (l : list Msg.t) : bool :=
  exchanges l
  || match l with
     | a :: rest => isAi a && truthy (Msg.content a) && exchanges rest
     | [] => false
     end.

(** ** Vocabulary of the statements *)

(** Two strings of ASCII letters that differ by letter case only. *)
Fixpoint sameLetters (w k : jsstring) : bool :=
  match w, k with
  | [], [] => true
  | c :: w', d :: k' =>
      (97 <=? d) && (d <=? 122) && ((c =? d) || (c + 32 =? d)) && sameLetters w' k'
  | _, _ => false
  end.

(** What the network can answer to one request, as the service tells the
    cases apart: the request is rejected, the status is outside 200..299,
    the body does not parse, or the body parses. *)
Definition transportFailed (answer : Exn + Response) : bool :=
  match answer with
  | inl _ => true
  | inr response =>
      negb (ok response)
      || match body response with
         | inl _ => true
         | inr _ => false
         end
  end.

(** The world after a method of the service that reads the clock once,
    posts [request] and logs [entries]. *)
Definition afterPost (w : World) (request : Request) (entries : list LogEntry) : World :=
  mkWorld (messages w) (isLoading w) (conversationMode w) (requests w ++ [request])
          (log w ++ entries) (S (clockReads w)) (randomReads w).

Definition chatRequest (rt : Runtime) (this : ConversationService.instance)
    (message : jsstring) (context : Json) (now : Z) : Request :=
  mkRequest (lit "POST") (concat (ConversationService.baseUrl this) (lit "/chat"))
    (Some (JObj [ (lit "message", JStr message);
                  (lit "session_id", JStr (ConversationService.sessionId this));
                  (lit "context", ConversationService.enrich rt context now) ])).

(** The reply [sendMessage] takes from a parsed body that is not [null]. *)
Definition replyOfBody (data : Json) : Json :=
  match data with
  | JObj fields =>
      orElse (lookup (lit "response") fields)
        (orElse (lookup (lit "message") fields) (JStr Reply.couldNotProcess))
  | _ => JStr Reply.couldNotProcess
  end.

Definition sendingInfo : LogEntry := LoggerInfo (lit "Sending message to LangGraph").
Definition receivedInfo : LogEntry := LoggerInfo (lit "Received response from LangGraph").

(** What the [catch] block of the service's [sendMessage] logs. *)
Definition caught (error : Exn) : list LogEntry :=
  [ ConsoleError (lit "Error sending message to LangGraph:") error;
    LoggerError error (lit "Failed to send message to LangGraph") ].

(** The log entries and the value of the service's [sendMessage], by the
    answer of the network. *)
Definition chatOutcome (rt : Runtime) (message : jsstring) (answer : Exn + Response)
  : list LogEntry * Json :=
  let failed entries e :=
    ((entries ++ caught e)%list, JStr (ConversationService.getFallbackResponse rt message)) in
  match answer with
  | inl e => failed [sendingInfo] e
  | inr response =>
      if ok response then
        match body response with
        | inl e => failed [sendingInfo] e
        | inr JNull => failed [sendingInfo; receivedInfo] (nullError (lit "response"))
        | inr data => ([sendingInfo; receivedInfo], replyOfBody data)
        end
      else failed [sendingInfo] (ConversationService.httpError response)
  end.

Definition startRequest (rt : Runtime) (this : ConversationService.instance)
    (context : Json) (now : Z) : Request :=
  mkRequest (lit "POST") (concat (ConversationService.baseUrl this) (lit "/conversation/start"))
    (Some (JObj [ (lit "action", JStr (lit "start_conversation"));
                  (lit "session_id", JStr (ConversationService.sessionId this));
                  (lit "context", ConversationService.enrich rt context now) ])).

(** The welcome text [startConversation] ends with for a parsed body. *)
Definition welcomeOfBody (data : Json) : Json :=
  match data with
  | JObj fields => orElse (lookup (lit "welcome_message") fields) (JStr Reply.greeting)
  | _ => JStr Reply.greeting
  end.

Definition startOutcome (answer : Exn + Response) : list LogEntry * Json :=
  let failed e :=
    ([ConsoleError (lit "Error starting conversation:") e], JStr Reply.greeting) in
  match answer with
  | inl e => failed e
  | inr response =>
      if ok response then
        match body response with
        | inl e => failed e
        | inr JNull => failed (nullError (lit "welcome_message"))
        | inr data => ([], welcomeOfBody data)
        end
      else failed (ConversationService.httpError response)
  end.

Definition actionRequest (rt : Runtime) (this : ConversationService.instance)
    (path action : jsstring) (now : Z) : Request :=
  mkRequest (lit "POST") (concat (ConversationService.baseUrl this) path)
    (Some (JObj [ (lit "action", JStr action);
                  (lit "session_id", JStr (ConversationService.sessionId this));
                  (lit "timestamp", JStr (toISOString rt now)) ])).

(** The two fire-and-forget calls log only a rejected request. *)
Definition ignoredOutcome (label : jsstring) (answer : Exn + Response) : list LogEntry :=
  match answer with
  | inl e => [ConsoleError label e]
  | inr _ => []
  end.

(** The member [key] of a parsed body, when the body is an object that has
    it. *)
Definition member (data : Json) (key : jsstring) : option Json :=
  match data with
  | JObj fields => lookup key fields
  | _ => None
  end.

(** The member is absent or holds a falsy value. *)
Definition absentOrFalsy (data : Json) (key : jsstring) : bool :=
  match member data key with
  | Some v => negb (truthy v)
  | None => true
  end.

(** A character of a radix-36 rendering: a digit or a lower-case letter. *)
Definition isBase36 (c : N) : bool :=
  ((48 <=? c) && (c <=? 57)) || ((97 <=? c) && (c <=? 122)).

(** ** What the utilities of the widget compute *)

(** The page type [detectPageContext] gives a path. *)
Definition pageTypeOfPath (path : jsstring) : jsstring :=
  if includes path (lit "/payment") || includes path (lit "/checkout") then lit "payment"
  else if includes path (lit "/account") || includes path (lit "/profile") then lit "account"
  else if includes path (lit "/support") || includes path (lit "/help") then lit "support"
  else lit "general".

(** The suggestions of a page type. *)
Definition pageSuggestions (pageType : option Json) : list jsstring :=
  if strictEq pageType (lit "payment") then Widget.paymentSuggestions
  else if strictEq pageType (lit "account") then Widget.accountSuggestions
  else if strictEq pageType (lit "support") then Widget.supportSuggestions
  else [].

Definition isNull (v : Json) : bool :=
  match v with JNull => true | _ => false end.

(** The world after [n] more readings of the clock. *)
Definition tick (n : nat) (w : World) : World :=
  mkWorld (messages w) (isLoading w) (conversationMode w) (requests w) (log w)
          (n + clockReads w) (randomReads w).

(** An entry of [errors] counts as recent at the instant [now]: its
    [timestamp] is a valid date later than one minute before [now]. *)
Definition isRecent (page : Page) (error : Json) (now : Z) : bool :=
  match dateValue page (member error (lit "timestamp")), timeClip (now - 60000) with
  | Some t, Some limit => (limit <? t)%Z
  | _, _ => false
  end.

(** The entries the filter keeps, the clock being read once for each
    entry, from the reading number [c] on. *)
Fixpoint recentAt (page : Page) (o : Oracle) (c : nat) (errors : list Json) : list Json :=
  match errors with
  | [] => []
  | error :: rest =>
      if isRecent page error (clock o c)
      then error :: recentAt page o (S c) rest
      else recentAt page o (S c) rest
  end.

(** What [getContextualSuggestions] returns from the suggestions of the
    page and the recent errors. *)
Definition suggestionsFrom (pageType : option Json) (recent : list Json) : list jsstring :=
  let suggestions :=
    (pageSuggestions pageType ++ match recent with
                                 | [] => []
                                 | _ :: _ => Widget.errorSuggestions
                                 end)%list in
  match suggestions with
  | [] => Widget.defaultSuggestions
  | _ :: _ => suggestions
  end.

(** An entry that is not [null] and is not dated after [limit]. *)
Definition staleAt (page : Page) (limit : Z) (error : Json) : bool :=
  negb (isNull error)
  && match dateValue page (member error (lit "timestamp")) with
     | Some t => (t <=? limit)%Z
     | None => true
     end.

(** An entry dated after [limit]. *)
Definition datedAfter (page : Page) (limit : Z) (error : Json) : bool :=
  match dateValue page (member error (lit "timestamp")) with
  | Some t => (limit <? t)%Z
  | None => false
  end.

(** ** Concrete pages for the examples *)

Module ExamplePage.

(** Reads back the decimal rendering of an instant, the way
    [Example.runtime] prints them. *)
Definition readDecimal (s : jsstring) : option Z :=
  match s with
  | [] => None
  | _ :: _ =>
      fold_left (fun acc c =>
                   match acc with
                   | Some n => if (48 <=? c) && (c <=? 57)
                               then Some (10 * n + Z.of_N (c - 48))%Z
                               else None
                   | None => None
                   end) s (Some 0%Z)
  end.

Definition dateOf (v : option Json) : option Z :=
  match v with
  | Some (JStr s) => readDecimal s
  | _ => None
  end.

Definition checkout : Page :=
  mkPage (lit "Checkout") (lit "/shop/checkout") (JObj []) dateOf.

Definition home : Page :=
  mkPage (lit "Home") (lit "/") (JObj []) dateOf.

(** An error recorded at the instant [t]. *)
Definition errorAt (t : Z) : Json :=
  Widget.consoleErrorEntry Example.runtime (lit "Error sending message to LangGraph:")
    (newTypeError (lit "Failed to fetch")) t.

End ExamplePage.

(** ** What error detection records *)

Definition chatUrl (this : ConversationService.instance) : jsstring :=
  concat (ConversationService.baseUrl this) (lit "/chat").

(** The entries pushed on [errors] during a [sendMessage] of the service
    run under error detection, by the answer of the network; [c] numbers
    the first reading of the clock after the request was issued. *)
Definition chatRecorded (rt : Runtime) (this : ConversationService.instance)
    (o : Oracle) (c : nat) (answer : Exn + Response) : list Json :=
  let console e t :=
    Widget.consoleErrorEntry rt (lit "Error sending message to LangGraph:") e t in
  match answer with
  | inl e => [Widget.networkErrorEntry rt e (chatUrl this) (clock o c); console e (clock o (S c))]
  | inr response =>
      if ok response then
        match body response with
        | inl e => [console e (clock o c)]
        | inr JNull => [console (nullError (lit "response")) (clock o c)]
        | inr _ => []
        end
      else [console (ConversationService.httpError response) (clock o c)]
  end.

(** * Properties *)

Arguments lit : simpl never.
Arguments decimal : simpl never.
Arguments substr : simpl never.
Arguments ConversationService.getFallbackResponse : simpl never.

(** ** Strings *)

Lemma N_of_ascii_inj (a b : ascii) : N_of_ascii a = N_of_ascii b -> a = b.
Proof.
  intros H. rewrite <- (ascii_N_embedding a), <- (ascii_N_embedding b).
  now rewrite H.
Qed.

Lemma list_ascii_of_string_inj (s t : string) :
  list_ascii_of_string s = list_ascii_of_string t -> s = t.
Proof.
  intros H.
  rewrite <- (string_of_list_ascii_of_string s), <- (string_of_list_ascii_of_string t).
  now rewrite H.
Qed.

Lemma lit_inj (s t : string) : lit s = lit t -> s = t.
Proof.
  unfold lit. intros H. apply list_ascii_of_string_inj.
  revert H. generalize (list_ascii_of_string s) (list_ascii_of_string t).
  induction l as [|a l IH]; intros [|b l']; simpl; intros H;
    try discriminate; [reflexivity|].
  injection H as Hab Hl. f_equal; [now apply N_of_ascii_inj | now apply IH].
Qed.

Lemma decimal_inj (x y : Z) : decimal x = decimal y -> x = y.
Proof.
  unfold decimal. intros H. apply lit_inj in H.
  apply DecimalZ.to_int_inj.
  assert (E : Some (Z.to_int x) = Some (Z.to_int y))
    by (rewrite <- !NilEmpty.isi; now rewrite H).
  now injection E.
Qed.

Lemma trimStart_nil_iff (s : jsstring) :
  trimStart s = [] <-> forallb isWhiteSpace s = true.
Proof.
  induction s as [|c s IH]; simpl; [tauto|].
  destruct (isWhiteSpace c); simpl; [exact IH|].
  split; discriminate.
Qed.

Lemma trimStart_all_white (s : jsstring) :
  forallb isWhiteSpace s = true -> trimStart s = [].
Proof. apply trimStart_nil_iff. Qed.

(** The trimmed form is empty exactly for a string of white space only. *)
Lemma trim_nil_iff (s : jsstring) :
  trim s = [] <-> forallb isWhiteSpace s = true.
Proof.
  unfold trim, trimEnd. split.
  - intros H. apply (f_equal (@rev N)) in H. rewrite rev_involutive in H.
    simpl in H. apply trimStart_nil_iff in H.
    induction s as [|c s IH]; [reflexivity|].
    simpl in *. destruct (isWhiteSpace c) eqn:Ec; simpl.
    + now apply IH.
    + simpl in H. rewrite forallb_app in H. simpl in H. rewrite Ec in H.
      rewrite andb_false_r in H. discriminate.
  - intros H. rewrite (trimStart_all_white s H). reflexivity.
Qed.

Lemma startsWith_spec (s p : jsstring) :
  startsWith s p = true <-> exists post, s = (p ++ post)%list.
Proof.
  revert s. induction p as [|b p IH]; intros s; simpl.
  - split; [intros _; now exists s | reflexivity].
  - destruct s as [|a s].
    + split; [discriminate | intros [post H]; discriminate].
    + rewrite andb_true_iff, N.eqb_eq, IH. split.
      * intros [-> [post ->]]. now exists post.
      * intros [post H]. injection H as -> ->. split; [reflexivity | now exists post].
Qed.

(** [includes] finds exactly the contiguous occurrences. *)
Lemma includes_spec (s k : jsstring) :
  includes s k = true <-> exists pre post, s = (pre ++ k ++ post)%list.
Proof.
  induction s as [|a s IH].
  - simpl. rewrite orb_false_r, startsWith_spec. split.
    + intros [post H]. now exists [], post.
    + intros [pre [post H]]. destruct pre; simpl in H; [now exists post | discriminate].
  - cbn [includes]. rewrite orb_true_iff, startsWith_spec, IH. split.
    + intros [[post H] | [pre [post H]]].
      * now exists [], post.
      * exists (a :: pre), post. now rewrite H.
    + intros [[|a' pre] [post H]].
      * left. now exists post.
      * right. injection H as _ H. now exists pre, post.
Qed.

Lemma toLowerCase_app (f : N -> list N) (s t : jsstring) :
  toLowerCase f (s ++ t) = (toLowerCase f s ++ toLowerCase f t)%list.
Proof. unfold toLowerCase. apply flat_map_app. Qed.

Lemma toLowerCase_sameLetters (f : N -> list N) (w k : jsstring) :
  sameLetters w k = true -> toLowerCase f w = k.
Proof.
  revert k. induction w as [|c w IH]; intros [|d k] H; try discriminate; [reflexivity|].
  cbn [sameLetters] in H. rewrite !andb_true_iff, orb_true_iff in H.
  destruct H as [[[Hd1 Hd2] Hc] Hw].
  apply N.leb_le in Hd1, Hd2. rewrite !N.eqb_eq in Hc.
  unfold toLowerCase in *. simpl. rewrite (IH k Hw). unfold lowerUnit.
  destruct Hc as [-> | <-].
  - replace (d <? 128) with true by (symmetry; apply N.ltb_lt; lia).
    replace (d <=? 90) with false by (symmetry; apply N.leb_gt; lia).
    now rewrite andb_false_r.
  - replace (c <? 128) with true by (symmetry; apply N.ltb_lt; lia).
    replace (65 <=? c) with true by (symmetry; apply N.leb_le; lia).
    replace (c <=? 90) with true by (symmetry; apply N.leb_le; lia).
    reflexivity.
Qed.

(** A message that holds a keyword in any letter case includes it once
    lower-cased. *)
Lemma includes_lowered (f : N -> list N) (pre w post k : jsstring) :
  sameLetters w k = true ->
  includes (toLowerCase f (pre ++ w ++ post)) k = true.
Proof.
  intros H. apply includes_spec.
  exists (toLowerCase f pre), (toLowerCase f post).
  now rewrite !toLowerCase_app, (toLowerCase_sameLetters f w k H).
Qed.

(** ** The fallback responder *)

(** The cascade of tests of [getFallbackResponse] is the first-match
    reading of the rule table. *)
Lemma getFallbackResponse_firstMatch (rt : Runtime) (message : jsstring) :
  ConversationService.getFallbackResponse rt message = firstMatch rt message.
Proof.
  unfold ConversationService.getFallbackResponse, firstMatch, ruleTable, ruleMatches.
  cbn [find existsb fst snd].
  repeat match goal with
         | |- context [includes ?a ?b] => destruct (includes a b); cbn [orb]; try reflexivity
         end.
Qed.

Lemma find_none_all {A : Type} (f : A -> bool) (l : list A) :
  (forall x, In x l -> f x = false) -> find f l = None.
Proof.
  induction l as [|a l IH]; intros H; [reflexivity|].
  simpl. rewrite (H a (or_introl eq_refl)). apply IH. intros x Hx. apply H. now right.
Qed.

(** A rule decides when no rule before it in the table matches. *)
Lemma firstMatch_earliest (rt : Runtime) (message : jsstring)
    (before after : list (list jsstring * jsstring)) (rule : list jsstring * jsstring) :
  ruleTable = (before ++ rule :: after)%list ->
  (forall r, In r before -> ruleMatches rt message r = false) ->
  ruleMatches rt message rule = true ->
  firstMatch rt message = snd rule.
Proof.
  intros Htab Hbefore Hrule. unfold firstMatch. rewrite Htab.
  clear Htab. induction before as [|b before IH]; simpl.
  - now rewrite Hrule.
  - rewrite (Hbefore b (or_introl eq_refl)). apply IH.
    intros r Hr. apply Hbefore. now right.
Qed.

(** C4, as the code has it: [getFallbackResponse] is a function of the
    message text alone (and of the case mapping of the runtime).  It
    returns the reply of the earliest rule of the table (help/support,
    payment/billing, error/problem, feature/request, bug/issue) one of
    whose keywords occurs in the lower-cased message.  So a message that
    holds "billing" in any letter case gets the payment reply provided it
    holds neither "help" nor "support"; and a message that holds no keyword
    gets the generic reply. *)
Theorem getFallbackResponse_rule_order (rt : Runtime) (message : jsstring) :
  (forall before rule after,
      ruleTable = (before ++ rule :: after)%list ->
      (forall r, In r before -> ruleMatches rt message r = false) ->
      ruleMatches rt message rule = true ->
      ConversationService.getFallbackResponse rt message = snd rule)
  /\ (forall pre w post,
         message = (pre ++ w ++ post)%list ->
         sameLetters w (lit "billing") = true ->
         includes (toLowerCase (unicodeLower rt) message) (lit "help") = false ->
         includes (toLowerCase (unicodeLower rt) message) (lit "support") = false ->
         ConversationService.getFallbackResponse rt message = Reply.payment)
  /\ ((forall rule, In rule ruleTable -> ruleMatches rt message rule = false) ->
      ConversationService.getFallbackResponse rt message = Reply.generic).
Proof.
  rewrite getFallbackResponse_firstMatch. repeat split.
  - intros before rule after. apply firstMatch_earliest.
  - intros pre w post -> Hw Hhelp Hsupport.
    apply (firstMatch_earliest rt _ [([lit "help"; lit "support"], Reply.help)]
             [ ([lit "error"; lit "problem"], Reply.technical);
               ([lit "feature"; lit "request"], Reply.feature);
               ([lit "bug"; lit "issue"], Reply.bug) ]
             ([lit "payment"; lit "billing"], Reply.payment)).
    + reflexivity.
    + intros r [<- | []]. unfold ruleMatches. cbn [existsb fst].
      now rewrite Hhelp, Hsupport.
    + unfold ruleMatches. cbn [existsb fst].
      rewrite (includes_lowered (unicodeLower rt) pre w post (lit "billing") Hw).
      now rewrite orb_true_r.
  - intros H. unfold firstMatch. now rewrite (find_none_all _ _ H).
Qed.

(** The payment rule at work on "my BiLLing": upper-case letters match. *)
Lemma getFallbackResponse_rule_order_witness :
  ConversationService.getFallbackResponse Example.runtime (lit "my BiLLing") = Reply.payment.
Proof.
  apply (proj1 (proj2 (getFallbackResponse_rule_order Example.runtime (lit "my BiLLing")))
           (lit "my ") (lit "BiLLing") []).
  - reflexivity.
  - vm_compute. reflexivity.
  - vm_compute. reflexivity.
  - vm_compute. reflexivity.
Defined.

(** C4, as stated, fails: "billing help" holds "billing" and gets the
    reply of the help rule, which stands before the payment rule. *)
Lemma getFallbackResponse_billing_counterexample :
  includes (lit "billing help") (lit "billing") = true
  /\ ConversationService.getFallbackResponse Example.runtime (lit "billing help") = Reply.help
  /\ Reply.help <> Reply.payment.
Proof.
  repeat split; try (vm_compute; reflexivity).
  intros H. apply lit_inj in H. discriminate.
Qed.

(** ** Running programs *)

Lemma run_bind {A B : Type} (o : Oracle) (p : Prog A) (f : A -> Prog B) (w : World) :
  run o (bindProg p f) w =
  match run o p w with
  | (w', inr a) => run o (f a) w'
  | (w', inl e) => (w', inl e)
  end.
Proof.
  revert w. induction p as [a | e | X e k IH]; intros w; simpl; try reflexivity.
  destruct (perform o e w) as [w' x]. apply IH.
Qed.

Lemma run_catch {A : Type} (o : Oracle) (p : Prog A) (h : Exn -> Prog A) (w : World) :
  run o (tryCatch p h) w =
  match run o p w with
  | (w', inr a) => (w', inr a)
  | (w', inl e) => run o (h e) w'
  end.
Proof.
  revert w. induction p as [a | e | X e k IH]; intros w; simpl; try reflexivity.
  destruct (perform o e w) as [w' x]. apply IH.
Qed.

Lemma run_tryFinally {A : Type} (o : Oracle) (p : Prog A) (c : Prog unit) (w : World) :
  run o (tryFinally p c) w =
  match run o p w with
  | (w', r) =>
      match run o c w' with
      | (w'', inr _) => (w'', r)
      | (w'', inl e) => (w'', inl e)
      end
  end.
Proof.
  revert w. induction p as [a | e | X e k IH]; intros w; simpl.
  - rewrite run_bind. destruct (run o c w) as [w' [e | []]]; reflexivity.
  - rewrite run_bind. destruct (run o c w) as [w' [e' | []]]; reflexivity.
  - destruct (perform o e w) as [w' x]. apply IH.
Qed.

(** ** The transport client *)

Ltac finish_run :=
  unfold afterPost, caught, sendingInfo, receivedInfo, nullError; cbn;
  rewrite <- ?app_assoc, ?app_nil_r; reflexivity.

Section Transport.

Variable rt : Runtime.
Variable this : ConversationService.instance.
Variable o : Oracle.

(** The service's [sendMessage] always returns: one clock reading, one
    request, and the value and log entries of [chatOutcome]. *)
Lemma service_sendMessage_run (message : jsstring) (context : Json) (w : World) :
  run o (ConversationService.sendMessage rt this message context) w
  = let out := chatOutcome rt message (network o (List.length (requests w))) in
    (afterPost w (chatRequest rt this message context (clock o (clockReads w))) (fst out),
     inr (snd out)).
Proof.
  unfold ConversationService.sendMessage, ConversationService.post, fetch, chatOutcome.
  cbn. destruct (network o (List.length (requests w))) as [e | response]; cbn.
  - finish_run.
  - destruct (ok response); cbn; [|finish_run].
    destruct (body response) as [e | data]; cbn; [finish_run|].
    destruct data as [| b | x | s | items | fields]; cbn; try finish_run.
    destruct (lookup (lit "response") fields) as [v|]; cbn.
    + destruct (truthy v); cbn; [finish_run|].
      destruct (lookup (lit "message") fields) as [v'|]; cbn; finish_run.
    + destruct (lookup (lit "message") fields) as [v'|]; cbn; finish_run.
Qed.

Lemma service_startConversation_run (context : Json) (w : World) :
  run o (ConversationService.startConversation rt this context) w
  = let out := startOutcome (network o (List.length (requests w))) in
    (afterPost w (startRequest rt this context (clock o (clockReads w))) (fst out),
     inr (snd out)).
Proof.
  unfold ConversationService.startConversation, ConversationService.post, fetch, startOutcome.
  cbn. destruct (network o (List.length (requests w))) as [e | response]; cbn.
  - finish_run.
  - destruct (ok response); cbn; [|finish_run].
    destruct (body response) as [e | data]; cbn; [finish_run|].
    destruct data as [| b | x | s | items | fields]; cbn; finish_run.
Qed.

Lemma service_clearConversation_run (w : World) :
  run o (ConversationService.clearConversation rt this) w
  = (afterPost w (actionRequest rt this (lit "/conversation/clear")
                    (lit "clear_conversation") (clock o (clockReads w)))
               (ignoredOutcome (lit "Error clearing conversation:")
                  (network o (List.length (requests w)))),
     inr tt).
Proof.
  unfold ConversationService.clearConversation, ConversationService.post, fetch.
  cbn. destruct (network o (List.length (requests w))) as [e | response]; cbn; finish_run.
Qed.

Lemma service_endConversation_run (w : World) :
  run o (ConversationService.endConversation rt this) w
  = (afterPost w (actionRequest rt this (lit "/conversation/end")
                    (lit "end_conversation") (clock o (clockReads w)))
               (ignoredOutcome (lit "Error ending conversation:")
                  (network o (List.length (requests w)))),
     inr tt).
Proof.
  unfold ConversationService.endConversation, ConversationService.post, fetch.
  cbn. destruct (network o (List.length (requests w))) as [e | response]; cbn; finish_run.
Qed.

End Transport.

(** ** The state machine *)

Section StateMachine.

Variable rt : Runtime.
Variable svc : ConversationService.instance.
Variable o : Oracle.

(** The run of [sendMessage] on a message that is not blank: five clock
    readings, one request, the two messages appended. *)
Lemma hook_sendMessage_run (content : jsstring) (context errors : Json) (w : World) :
  trim content <> [] ->
  run o (useConversation.sendMessage rt svc content context errors) w
  = let c := clockReads w in
    let out := chatOutcome rt content (network o (List.length (requests w))) in
    (mkWorld
       ((messages w
         ++ [Msg.make (clock o c + 0) user (JStr content) (toISOString rt (clock o (1 + c)))])
         ++ [Msg.make (clock o (3 + c) + 1) ai (snd out) (toISOString rt (clock o (4 + c)))])
       false (conversationMode w)
       (requests w ++ [chatRequest rt svc content
                         (useConversation.messageContextOf rt context errors)
                         (clock o (2 + c))])
       (log w ++ fst out) (5 + c) (randomReads w),
     inr tt).
Proof.
  intros Hc. unfold useConversation.sendMessage.
  destruct (trim content) as [|c0 t0] eqn:Et; [contradiction|]. cbn [isEmpty].
  unfold useConversation.sendMessage_try.
  remember (ConversationService.sendMessage rt svc content
              (useConversation.messageContextOf rt context errors)) as call eqn:Ecall.
  cbn. rewrite run_tryFinally, run_catch, run_bind.
  subst call. rewrite service_sendMessage_run. cbn. reflexivity.
Qed.

(** The same call up to its suspension at [fetch]. *)
Lemma hook_sendMessage_runSync (content : jsstring) (context errors : Json) (w : World) :
  trim content <> [] ->
  runSync o (useConversation.sendMessage rt svc content context errors) w
  = let c := clockReads w in
    (mkWorld
       (messages w
        ++ [Msg.make (clock o c + 0) user (JStr content) (toISOString rt (clock o (1 + c)))])
       true (conversationMode w) (requests w) (log w ++ [sendingInfo])
       (3 + c) (randomReads w),
     Some (chatRequest rt svc content
             (useConversation.messageContextOf rt context errors) (clock o (2 + c)))).
Proof.
  intros Hc. unfold useConversation.sendMessage.
  destruct (trim content) as [|c0 t0] eqn:Et; [contradiction|]. cbn [isEmpty].
  reflexivity.
Qed.

Lemma hook_sendMessage_blank (content : jsstring) (context errors : Json) (w : World) :
  trim content = [] ->
  useConversation.sendMessage rt svc content context errors = Ret tt.
Proof.
  intros Hc. unfold useConversation.sendMessage. now rewrite Hc.
Qed.

(** The try block of the hook's [sendMessage] completes normally. *)
Lemma hook_sendMessage_try_returns (content : jsstring) (context errors : Json) (w : World) :
  exists w', run o (useConversation.sendMessage_try rt svc content context errors) w
             = (w', inr tt).
Proof.
  unfold useConversation.sendMessage_try. cbn [bind Monad_Prog].
  rewrite run_bind, service_sendMessage_run. cbn. eexists. reflexivity.
Qed.

Lemma hook_startConversation_run (context errors : Json) (w : World) :
  run o (useConversation.startConversation rt svc context errors) w
  = let c := clockReads w in
    let out := startOutcome (network o (List.length (requests w))) in
    (mkWorld
       [Msg.make (clock o (1 + c) + 0) ai (snd out) (toISOString rt (clock o (2 + c)))]
       false true
       (requests w ++ [startRequest rt svc (useConversation.messageContextOf rt context errors)
                         (clock o c)])
       (log w ++ fst out) (3 + c) (randomReads w),
     inr tt).
Proof.
  unfold useConversation.startConversation.
  remember (ConversationService.startConversation rt svc
              (useConversation.messageContextOf rt context errors)) as call eqn:Ecall.
  cbn. rewrite run_tryFinally, run_catch, run_bind.
  subst call. rewrite service_startConversation_run. cbn. reflexivity.
Qed.

Lemma hook_clearConversation_run (w : World) :
  run o (useConversation.clearConversation rt svc) w
  = (mkWorld [] (isLoading w) (conversationMode w)
       (requests w ++ [actionRequest rt svc (lit "/conversation/clear")
                         (lit "clear_conversation") (clock o (clockReads w))])
       (log w ++ ignoredOutcome (lit "Error clearing conversation:")
                   (network o (List.length (requests w))))
       (S (clockReads w)) (randomReads w),
     inr tt).
Proof.
  unfold useConversation.clearConversation. cbn [bind catch Monad_Prog Exc_Prog].
  rewrite run_catch, run_bind, service_clearConversation_run. reflexivity.
Qed.

Lemma hook_endConversation_run (w : World) :
  run o (useConversation.endConversation rt svc) w
  = (afterPost w (actionRequest rt svc (lit "/conversation/end")
                    (lit "end_conversation") (clock o (clockReads w)))
       (ignoredOutcome (lit "Error ending conversation:")
          (network o (List.length (requests w)))),
     inr tt).
Proof.
  unfold useConversation.endConversation. cbn [bind catch Monad_Prog Exc_Prog].
  rewrite run_catch, service_endConversation_run. reflexivity.
Qed.

(** A settled call leaves the hook idle when it found it idle. *)
Lemma call_keeps_idle (c : useConversation.Call) (w : World) :
  isLoading w = false ->
  isLoading (fst (run o (useConversation.call rt svc c) w)) = false.
Proof.
  intros Hw. destruct c as [content context errors | context errors | | | b]; cbn [useConversation.call].
  - destruct (trim content) as [|c0 t0] eqn:Et.
    + now rewrite (hook_sendMessage_blank content context errors w Et).
    + rewrite hook_sendMessage_run by (rewrite Et; discriminate). reflexivity.
  - rewrite hook_startConversation_run. reflexivity.
  - rewrite hook_clearConversation_run. exact Hw.
  - rewrite hook_endConversation_run. exact Hw.
  - exact Hw.
Qed.

Lemma runCalls_idle (calls : list useConversation.Call) (w : World) :
  isLoading w = false ->
  isLoading (useConversation.runCalls rt svc o calls w) = false.
Proof.
  revert w. induction calls as [|c calls IH]; intros w Hw; [exact Hw|].
  cbn [useConversation.runCalls fold_left].
  apply IH. now apply call_keeps_idle.
Qed.

End StateMachine.

(** ** The claims about the state machine *)

(** C1: in a session of calls made one after the other on a mounted hook,
    a [sendMessage] whose content is not blank finds [isLoading] false; by
    the time it suspends at [fetch] it has appended exactly one user
    message and has issued no request yet; once settled it has appended
    exactly one assistant message after that one, and [isLoading] is false
    again. *)
Theorem sendMessage_appends_user_then_assistant
    (rt : Runtime) (svc : ConversationService.instance) (o : Oracle) (w0 : World)
    (calls : list useConversation.Call) (content : jsstring) (context errors : Json) :
  trim content <> [] ->
  let w := useConversation.runCalls rt svc o calls (useConversation.mount w0) in
  let p := useConversation.sendMessage rt svc content context errors in
  exists (u a : Msg.t) (w1 w2 : World) (r : Request),
    isLoading w = false
    /\ runSync o p w = (w1, Some r)
    /\ messages w1 = (messages w ++ [u])%list
    /\ requests w1 = requests w
    /\ isLoading w1 = true
    /\ run o p w = (w2, inr tt)
    /\ messages w2 = (messages w ++ [u; a])%list
    /\ requests w2 = (requests w ++ [r])%list
    /\ Msg.type u = user /\ Msg.content u = JStr content
    /\ Msg.type a = ai
    /\ isLoading w2 = false.
Proof.
  intros Hc w p. subst p.
  rewrite (hook_sendMessage_run rt svc o content context errors w Hc).
  rewrite (hook_sendMessage_runSync rt svc o content context errors w Hc).
  cbv zeta. do 5 eexists.
  split; [apply runCalls_idle; reflexivity|].
  split; [reflexivity|]. cbn [messages requests isLoading].
  rewrite <- app_assoc. cbn [app].
  repeat (split; [reflexivity|]). reflexivity.
Qed.

Lemma sendMessage_appends_user_then_assistant_witness :
  exists (u a : Msg.t),
    messages (fst (run (Example.answering
                          (Example.http200 (JObj [(lit "response", JStr (lit "Try restarting."))])))
                     (useConversation.sendMessage Example.runtime Example.service
                        (lit "it's broken") JNull JNull)
                     (useConversation.mount useConversation.initial)))
    = [u; a]
    /\ Msg.type u = user /\ Msg.content u = JStr (lit "it's broken") /\ Msg.type a = ai.
Proof.
  destruct (sendMessage_appends_user_then_assistant Example.runtime Example.service
              (Example.answering
                 (Example.http200 (JObj [(lit "response", JStr (lit "Try restarting."))])))
              useConversation.initial [] (lit "it's broken") JNull JNull)
    as (u & a & w1 & w2 & r & _ & _ & _ & _ & _ & Hrun & Hm & _ & Hu & Hc & Ha & _).
  - vm_compute. discriminate.
  - exists u, a. cbn [useConversation.runCalls fold_left] in Hrun, Hm.
    rewrite Hrun. cbn [fst]. rewrite Hm. repeat split; assumption.
Defined.

(** C5: on a content that is empty or all white space [sendMessage] does
    nothing at all: it returns at once, the world (messages, [isLoading],
    requests issued, everything else) is the one before the call, and the
    call never reaches [fetch]. *)
Theorem sendMessage_blank_is_noop
    (rt : Runtime) (svc : ConversationService.instance) (o : Oracle)
    (content : jsstring) (context errors : Json) (w : World) :
  forallb isWhiteSpace content = true ->
  run o (useConversation.sendMessage rt svc content context errors) w = (w, inr tt)
  /\ runSync o (useConversation.sendMessage rt svc content context errors) w = (w, None).
Proof.
  intros Hc. apply trim_nil_iff in Hc.
  rewrite (hook_sendMessage_blank rt svc content context errors w Hc).
  split; reflexivity.
Qed.

Lemma sendMessage_blank_is_noop_witness :
  run Example.offline
    (useConversation.sendMessage Example.runtime Example.service
       [32; 9; 10; 160] JNull JNull) useConversation.initial
  = (useConversation.initial, inr tt).
Proof.
  apply (sendMessage_blank_is_noop Example.runtime Example.service Example.offline
           [32; 9; 10; 160] JNull JNull useConversation.initial).
  reflexivity.
Defined.

(** C6: whatever the state before and whatever the network answers to the
    clear request (a response of any status, or a rejection),
    [clearConversation] settles normally with an empty message
    sequence. *)
Theorem clearConversation_empties_messages
    (rt : Runtime) (svc : ConversationService.instance) (o : Oracle) (w : World) :
  exists w',
    run o (useConversation.clearConversation rt svc) w = (w', inr tt)
    /\ messages w' = []
    /\ isLoading w' = isLoading w
    /\ conversationMode w' = conversationMode w.
Proof.
  rewrite hook_clearConversation_run. eexists. repeat split.
Qed.

(** C7: whatever the messages before and whatever the network answers,
    [startConversation] settles normally with exactly one message, of the
    assistant, and [conversationMode] true (and [isLoading] false).  When
    the remote call fails (rejection, status outside 200..299, body that
    does not parse) the message holds the default greeting; when it
    succeeds the message holds the text taken from the body (its truthy
    [welcome_message], or else the default greeting). *)
Theorem startConversation_single_welcome
    (rt : Runtime) (svc : ConversationService.instance) (o : Oracle)
    (context errors : Json) (w : World) :
  exists (w' : World) (m : Msg.t),
    run o (useConversation.startConversation rt svc context errors) w = (w', inr tt)
    /\ messages w' = [m]
    /\ Msg.type m = ai
    /\ conversationMode w' = true
    /\ isLoading w' = false
    /\ (transportFailed (network o (List.length (requests w))) = true ->
        Msg.content m = JStr Reply.greeting)
    /\ (forall response data,
           network o (List.length (requests w)) = inr response ->
           ok response = true -> body response = inr data ->
           Msg.content m = welcomeOfBody data).
Proof.
  rewrite hook_startConversation_run. cbv zeta. do 2 eexists.
  repeat (split; [reflexivity|]). cbn [Msg.content]. unfold startOutcome. split.
  - intros Hf. destruct (network o (List.length (requests w))) as [e | response];
      [reflexivity|].
    cbn [transportFailed] in Hf.
    destruct (ok response); [|reflexivity].
    destruct (body response); [reflexivity | discriminate].
  - intros response data -> -> ->. destruct data; reflexivity.
Qed.

Lemma startConversation_single_welcome_witness :
  map Msg.content
    (messages (fst (run Example.offline
                      (useConversation.startConversation Example.runtime Example.service
                         JNull JNull)
                      useConversation.initial)))
  = [JStr Reply.greeting].
Proof.
  destruct (startConversation_single_welcome Example.runtime Example.service Example.offline
              JNull JNull useConversation.initial)
    as (w' & m & Hrun & Hm & _ & _ & _ & Hfail & _).
  rewrite Hrun. cbn [fst]. rewrite Hm. cbn [map]. rewrite Hfail; reflexivity.
Defined.

(** ** The claims about the transport client *)

(** C2, as the code has it: a response whose status is outside 200..299
    makes the [try] block throw an [Error] whose message carries the
    status; the [catch] block of the same function logs that error and
    returns the fallback reply, so the caller gets a value and no
    exception. *)
Theorem sendMessage_http_error_is_caught
    (rt : Runtime) (this : ConversationService.instance) (o : Oracle)
    (message : jsstring) (context : Json) (w : World) (response : Response) :
  network o (List.length (requests w)) = inr response ->
  ok response = false ->
  exists w',
    run o (ConversationService.sendMessage rt this message context) w
    = (w', inr (JStr (ConversationService.getFallbackResponse rt message)))
    /\ log w' = (log w ++ sendingInfo :: caught (ConversationService.httpError response))%list
    /\ exn_message (ConversationService.httpError response)
       = concat (lit "HTTP error! status: ") (decimal (status response)).
Proof.
  intros Hn Hok. rewrite service_sendMessage_run. unfold chatOutcome.
  rewrite Hn, Hok. eexists. repeat split.
Qed.

Lemma sendMessage_http_error_is_caught_witness :
  snd (run (Example.answering Example.http500)
         (ConversationService.sendMessage Example.runtime Example.service
            (lit "help") (JObj [])) useConversation.initial)
  = inr (JStr (ConversationService.getFallbackResponse Example.runtime (lit "help"))).
Proof.
  destruct (sendMessage_http_error_is_caught Example.runtime Example.service
              (Example.answering Example.http500) (lit "help") (JObj [])
              useConversation.initial Example.http500 eq_refl eq_refl)
    as (w' & Hrun & _).
  rewrite Hrun. reflexivity.
Defined.

(** C2, as stated, fails: on a response of status 500 the service's
    [sendMessage] returns the help reply to its caller; nothing is
    raised. *)
Lemma sendMessage_http_error_counterexample :
  ok Example.http500 = false
  /\ snd (run (Example.answering Example.http500)
            (ConversationService.sendMessage Example.runtime Example.service
               (lit "help") (JObj [])) useConversation.initial)
     = inr (JStr Reply.help)
  /\ forall e : Exn,
      snd (run (Example.answering Example.http500)
             (ConversationService.sendMessage Example.runtime Example.service
                (lit "help") (JObj [])) useConversation.initial)
      <> inl e.
Proof.
  assert (H : snd (run (Example.answering Example.http500)
                     (ConversationService.sendMessage Example.runtime Example.service
                        (lit "help") (JObj [])) useConversation.initial)
              = inr (JStr Reply.help)) by (vm_compute; reflexivity).
  split; [reflexivity|]. split; [exact H|].
  intros e. rewrite H. discriminate.
Qed.

(** C9, as the code has it: on a response of status 200..299 whose body
    parses to a value other than [null], [sendMessage] returns the
    [response] member when it holds a truthy value; otherwise the
    [message] member when that holds a truthy value; otherwise (each
    member absent or falsy) the fixed "couldn't process" string. *)
Theorem sendMessage_reply_chain
    (rt : Runtime) (this : ConversationService.instance) (o : Oracle)
    (message : jsstring) (context : Json) (w : World)
    (response : Response) (data : Json) :
  network o (List.length (requests w)) = inr response ->
  ok response = true ->
  body response = inr data ->
  data <> JNull ->
  exists (w' : World) (result : Json),
    run o (ConversationService.sendMessage rt this message context) w = (w', inr result)
    /\ (forall v, member data (lit "response") = Some v -> truthy v = true -> result = v)
    /\ (absentOrFalsy data (lit "response") = true ->
        forall v, member data (lit "message") = Some v -> truthy v = true -> result = v)
    /\ (absentOrFalsy data (lit "response") = true ->
        absentOrFalsy data (lit "message") = true ->
        result = JStr Reply.couldNotProcess).
Proof.
  intros Hn Hok Hb Hd. rewrite service_sendMessage_run. unfold chatOutcome.
  rewrite Hn, Hok, Hb. do 2 eexists. split; [reflexivity|].
  unfold absentOrFalsy.
  destruct data as [| b | x | s | items | fields]; [now destruct Hd| | | | |];
    cbn [snd member replyOfBody]; try (repeat split; intros; congruence).
  unfold orElse.
  destruct (lookup (lit "response") fields) as [r|];
    destruct (lookup (lit "message") fields) as [m|];
    try destruct (truthy r) eqn:Er; try destruct (truthy m) eqn:Em;
    cbn [negb]; repeat split; intros; congruence.
Qed.

Lemma sendMessage_reply_chain_witness :
  snd (run (Example.answering
              (Example.http200 (JObj [(lit "message", JStr (lit "Hello there"))])))
         (ConversationService.sendMessage Example.runtime Example.service
            (lit "hi") (JObj [])) useConversation.initial)
  = inr (JStr (lit "Hello there")).
Proof.
  destruct (sendMessage_reply_chain Example.runtime Example.service
              (Example.answering
                 (Example.http200 (JObj [(lit "message", JStr (lit "Hello there"))])))
              (lit "hi") (JObj []) useConversation.initial
              (Example.http200 (JObj [(lit "message", JStr (lit "Hello there"))]))
              (JObj [(lit "message", JStr (lit "Hello there"))])
              eq_refl eq_refl eq_refl)
    as (w' & result & Hrun & _ & Hmessage & _).
  - discriminate.
  - rewrite Hrun. cbn [snd]. f_equal. apply Hmessage.
    + reflexivity.
    + vm_compute. reflexivity.
    + reflexivity.
Defined.

(** C9, as stated, fails: with a body whose [response] and [message]
    members are both present and empty, the fixed string is returned (and
    not the [response] member). *)
Lemma sendMessage_reply_chain_counterexample :
  let data := JObj [(lit "response", JStr []); (lit "message", JStr [])] in
  member data (lit "response") = Some (JStr [])
  /\ member data (lit "message") = Some (JStr [])
  /\ snd (run (Example.answering (Example.http200 data))
            (ConversationService.sendMessage Example.runtime Example.service
               (lit "hi") (JObj [])) useConversation.initial)
     = inr (JStr Reply.couldNotProcess)
  /\ JStr Reply.couldNotProcess <> JStr [].
Proof.
  cbv zeta. repeat split; try (vm_compute; reflexivity).
  vm_compute. discriminate.
Qed.

(** C10: the service's [sendMessage] returns a value on every answer of
    the network and never throws; when the transport fails (rejected
    request, status outside 200..299, body that does not parse) the value
    is the string [getFallbackResponse message].  Hence the [try] block of
    the hook's [sendMessage] always completes normally, and whatever the
    handler of its [catch], it is not run. *)
Theorem service_sendMessage_never_throws
    (rt : Runtime) (this : ConversationService.instance) (o : Oracle)
    (message : jsstring) (context : Json) (w : World) :
  (exists (w' : World) (v : Json),
      run o (ConversationService.sendMessage rt this message context) w = (w', inr v)
      /\ (transportFailed (network o (List.length (requests w))) = true ->
          v = JStr (ConversationService.getFallbackResponse rt message)))
  /\ (forall (errors : Json) (w0 : World),
         (exists w', run o (useConversation.sendMessage_try rt this message context errors) w0
                     = (w', inr tt))
         /\ forall handler : Exn -> Prog unit,
             run o (catch (useConversation.sendMessage_try rt this message context errors)
                          handler) w0
             = run o (useConversation.sendMessage_try rt this message context errors) w0).
Proof.
  split.
  - rewrite service_sendMessage_run. cbv zeta. do 2 eexists. split; [reflexivity|].
    unfold chatOutcome.
    destruct (network o (List.length (requests w))) as [e | response]; [reflexivity|].
    cbn [transportFailed]. intros Hf.
    destruct (ok response); [|reflexivity].
    destruct (body response); [reflexivity | discriminate].
  - intros errors w0.
    destruct (hook_sendMessage_try_returns rt this o message context errors w0) as [w' Hw'].
    split; [now exists w'|].
    intros handler. cbn [catch Exc_Prog]. rewrite run_catch, Hw'. reflexivity.
Qed.

Lemma service_sendMessage_never_throws_witness :
  snd (run Example.offline
         (ConversationService.sendMessage Example.runtime Example.service
            (lit "my payment failed") (JObj [])) useConversation.initial)
  = inr (JStr Reply.payment).
Proof.
  destruct (proj1 (service_sendMessage_never_throws Example.runtime Example.service
                     Example.offline (lit "my payment failed") (JObj [])
                     useConversation.initial))
    as (w' & v & Hrun & Hfail).
  rewrite Hrun. cbn [snd]. rewrite (Hfail eq_refl). reflexivity.
Defined.

(** C3, as the code has it: when the transport fails under a
    [sendMessage] whose content is not blank (rejected request, status
    outside 200..299, body that does not parse), the assistant message
    the state machine appends holds [getFallbackResponse content].  The
    fixed apology text is what the [catch] block of the hook appends, for
    an exception that escapes the service call. *)
Theorem sendMessage_transport_failure_reply
    (rt : Runtime) (svc : ConversationService.instance) (o : Oracle)
    (content : jsstring) (context errors : Json) (w : World) :
  trim content <> [] ->
  transportFailed (network o (List.length (requests w))) = true ->
  (exists (w' : World) (u a : Msg.t),
      run o (useConversation.sendMessage rt svc content context errors) w = (w', inr tt)
      /\ messages w' = (messages w ++ [u; a])%list
      /\ Msg.type a = ai
      /\ Msg.content a = JStr (ConversationService.getFallbackResponse rt content)
      /\ isLoading w' = false)
  /\ (forall (error : Exn) (w0 : World),
         exists (w' : World) (m : Msg.t),
           run o (useConversation.sendMessage_catch rt error) w0 = (w', inr tt)
           /\ messages w' = (messages w0 ++ [m])%list
           /\ Msg.type m = ai
           /\ Msg.content m = JStr Reply.apology).
Proof.
  intros Hc Hf. split.
  - rewrite (hook_sendMessage_run rt svc o content context errors w Hc). cbv zeta.
    do 3 eexists. split; [reflexivity|]. cbn [messages isLoading].
    rewrite <- app_assoc. cbn [app]. split; [reflexivity|]. cbn [Msg.type Msg.content].
    repeat split. unfold chatOutcome.
    destruct (network o (List.length (requests w))) as [e | response]; [reflexivity|].
    cbn [transportFailed] in Hf.
    destruct (ok response); [|reflexivity].
    destruct (body response); [reflexivity | discriminate].
  - intros error w0. do 2 eexists. cbn. repeat split.
Qed.

Lemma sendMessage_transport_failure_reply_witness :
  exists (w' : World) (u a : Msg.t),
    run (Example.answering Example.http500)
      (useConversation.sendMessage Example.runtime Example.service (lit "help") JNull JNull)
      useConversation.initial = (w', inr tt)
    /\ messages w' = (messages useConversation.initial ++ [u; a])%list
    /\ Msg.type a = ai
    /\ Msg.content a = JStr (ConversationService.getFallbackResponse Example.runtime (lit "help"))
    /\ isLoading w' = false.
Proof.
  apply (sendMessage_transport_failure_reply Example.runtime Example.service
           (Example.answering Example.http500) (lit "help") JNull JNull
           useConversation.initial).
  - vm_compute. discriminate.
  - reflexivity.
Defined.

(** C3, as stated, fails: the backend answers 500 to "help"; the
    assistant message holds the help reply of the fallback responder, not
    the apology. *)
Lemma sendMessage_apology_counterexample :
  transportFailed (network (Example.answering Example.http500) 0) = true
  /\ map Msg.content
       (messages (fst (run (Example.answering Example.http500)
                         (useConversation.sendMessage Example.runtime Example.service
                            (lit "help") JNull JNull)
                         useConversation.initial)))
     = [JStr (lit "help"); JStr Reply.help]
  /\ JStr Reply.help <> JStr Reply.apology.
Proof.
  split; [reflexivity|]. split; [vm_compute; reflexivity|].
  intros H.
  apply (f_equal (fun j => match j with JStr s => s | _ => [] end)) in H.
  cbv beta iota in H. apply lit_inj in H. discriminate.
Qed.

(** ** Session identity *)

Lemma lit_cons (c : ascii) (s : string) : lit (String c s) = N_of_ascii c :: lit s.
Proof. reflexivity. Qed.

Lemma uint_no_underscore (d : Decimal.uint) : ~ In 95 (lit (NilEmpty.string_of_uint d)).
Proof.
  induction d; cbn [NilEmpty.string_of_uint]; try rewrite lit_cons;
    intros H; try (destruct H as [H | H]; [discriminate H | now apply IHd]).
  exact H.
Qed.

Lemma decimal_no_underscore (z : Z) : ~ In 95 (decimal z).
Proof.
  unfold decimal. destruct (Z.to_int z) as [d | d]; cbn [NilEmpty.string_of_int].
  - apply uint_no_underscore.
  - rewrite lit_cons. intros [H | H]; [discriminate H | now apply uint_no_underscore in H].
Qed.

Lemma split_at_first {A : Type} (x : A) (a a' b b' : list A) :
  ~ In x a -> ~ In x a' ->
  (a ++ x :: b = a' ++ x :: b')%list -> a = a' /\ b = b'.
Proof.
  revert a'. induction a as [|y a IH]; intros [|y' a'] Ha Ha' H; simpl in *.
  - injection H as H. now split.
  - injection H as H _. subst y'. exfalso. apply Ha'. now left.
  - injection H as H _. subst y. exfalso. apply Ha. now left.
  - injection H as Hy H. subst y'.
    destruct (IH a') as [-> ->]; auto.
Qed.

Lemma substr_toString36 (r : fraction36) :
  substr (toString36 r) 2 9 = firstn 9 (map digitChar r).
Proof. destruct r as [|d r]; reflexivity. Qed.

Lemma digitChar_base36 (d : N) : (d <? 36) = true -> isBase36 (digitChar d) = true.
Proof.
  intros H. apply N.ltb_lt in H. unfold digitChar, isBase36.
  destruct (N.ltb_spec d 10).
  - apply orb_true_iff. left. apply andb_true_iff. split; apply N.leb_le; lia.
  - apply orb_true_iff. right. apply andb_true_iff. split; apply N.leb_le; lia.
Qed.

Lemma forallb_firstn {A : Type} (f : A -> bool) (n : nat) (l : list A) :
  forallb f l = true -> forallb f (firstn n l) = true.
Proof.
  revert n. induction l as [|a l IH]; intros [|n] H; simpl in *; auto.
  apply andb_true_iff in H. destruct H as [Ha Hl].
  rewrite Ha. now apply IH.
Qed.

Lemma forallb_map_impl {A B : Type} (f : A -> bool) (g : B -> bool) (h : A -> B)
    (l : list A) :
  (forall a, f a = true -> g (h a) = true) ->
  forallb f l = true -> forallb g (map h l) = true.
Proof.
  intros Hfg. induction l as [|a l IH]; intros H; simpl in *; auto.
  apply andb_true_iff in H. destruct H as [Ha Hl].
  rewrite (Hfg a Ha). now apply IH.
Qed.

Lemma generateSessionId_run (o : Oracle) (w : World) :
  snd (run o ConversationService.generateSessionId w)
  = inr (concat (lit "session_")
           (concat (decimal (clock o (clockReads w)))
              (concat (lit "_") (firstn 9 (map digitChar (random o (randomReads w))))))).
Proof.
  unfold ConversationService.generateSessionId. cbn.
  now rewrite substr_toString36.
Qed.

(** C8, as the code has it: [generateSessionId] returns
    session_<epoch-millis>_<suffix> where the suffix is made of the first
    nine digits of the radix-36 rendering of the random draw, so of at
    most nine radix-36 characters (fewer when the rendering is shorter);
    two calls return the same value exactly when they read the same
    millisecond and their draws give the same suffix. *)
Theorem generateSessionId_format (o : Oracle) (w : World) :
  forallb (fun d => d <? 36) (random o (randomReads w)) = true ->
  exists suffix : jsstring,
    snd (run o ConversationService.generateSessionId w)
    = inr (concat (lit "session_")
             (concat (decimal (clock o (clockReads w))) (concat (lit "_") suffix)))
    /\ suffix = firstn 9 (map digitChar (random o (randomReads w)))
    /\ (List.length suffix <= 9)%nat
    /\ forallb isBase36 suffix = true
    /\ forall (o' : Oracle) (w' : World),
        snd (run o' ConversationService.generateSessionId w')
        = snd (run o ConversationService.generateSessionId w)
        <-> clock o' (clockReads w') = clock o (clockReads w)
            /\ firstn 9 (map digitChar (random o' (randomReads w'))) = suffix.
Proof.
  intros Hr. eexists. split; [apply generateSessionId_run|].
  split; [reflexivity|]. split; [apply firstn_le_length|]. split.
  - apply forallb_firstn.
    apply (forallb_map_impl (fun d => d <? 36) isBase36 digitChar); [|exact Hr].
    apply digitChar_base36.
  - intros o' w'. rewrite !generateSessionId_run. unfold concat. split.
    + intros H.
      apply (f_equal (fun x : Exn + jsstring => match x with inr s => s | inl _ => [] end)) in H.
      cbv beta iota in H. apply app_inv_head in H.
      change (lit "_") with [95] in H. cbn [app] in H.
      apply split_at_first in H; try apply decimal_no_underscore.
      destruct H as [Ht Hs]. split; [now apply decimal_inj | exact Hs].
    + intros [-> ->]. reflexivity.
Qed.

Lemma generateSessionId_format_witness :
  exists suffix : jsstring,
    snd (run Example.sameMillisecond ConversationService.generateSessionId
           useConversation.initial)
    = inr (concat (lit "session_") (concat (decimal 1700000000000) (concat (lit "_") suffix)))
    /\ (List.length suffix <= 9)%nat.
Proof.
  destruct (generateSessionId_format Example.sameMillisecond useConversation.initial)
    as (suffix & Hid & _ & Hlen & _).
  - reflexivity.
  - exists suffix. split; [exact Hid | exact Hlen].
Defined.

(** C8, as stated, fails twice.  When the random source returns 0.5, whose
    radix-36 rendering is "0.i", the suffix is the single character "i".
    And two consecutive calls that read the same millisecond, with draws
    that differ after their ninth digit, return the same value. *)
Lemma generateSessionId_counterexample :
  Qeq (fractionValue [18]) (1 # 2)
  /\ snd (run Example.drawHalf ConversationService.generateSessionId useConversation.initial)
     = inr (lit "session_1700000000000_i")
  /\ random Example.sameMillisecond 0 <> random Example.sameMillisecond 1
  /\ snd (run Example.sameMillisecond
            (a <- ConversationService.generateSessionId ;;
             b <- ConversationService.generateSessionId ;;
             ret (a, b))
            useConversation.initial)
     = inr (lit "session_1700000000000_123456789", lit "session_1700000000000_123456789").
Proof.
  split; [reflexivity|]. split; [vm_compute; reflexivity|].
  split; [discriminate | vm_compute; reflexivity].
Qed.

(** * Beyond the claims *)

(** ** The rest of the transport client *)

Lemma service_getConversationHistory_run
    (this : ConversationService.instance) (o : Oracle) (w : World) :
  run o (ConversationService.getConversationHistory this) w
  = let out := historyOutcome (network o (List.length (requests w))) in
    (afterFetch w (historyRequest this) (fst out), inr (snd out)).
Proof.
  unfold ConversationService.getConversationHistory, fetch, historyOutcome.
  cbn. destruct (network o (List.length (requests w))) as [e | response]; cbn.
  - unfold afterFetch, historyRequest. rewrite ?app_nil_r. reflexivity.
  - destruct (ok response); cbn;
      [|unfold afterFetch, historyRequest; rewrite ?app_nil_r; reflexivity].
    destruct (body response) as [e | data]; cbn;
      [unfold afterFetch, historyRequest; rewrite ?app_nil_r; reflexivity|].
    destruct data as [| b | x | s | items | fields]; cbn;
      unfold afterFetch, historyRequest; rewrite ?app_nil_r; reflexivity.
Qed.

Lemma transportFailed_cases (answer : Exn + Response) :
  transportFailed answer = true ->
  (exists e, answer = inl e)
  \/ (exists response, answer = inr response /\ ok response = false)
  \/ (exists response e,
         answer = inr response /\ ok response = true /\ body response = inl e).
Proof.
  destruct answer as [e | response]; cbn [transportFailed]; intros H.
  - left. now exists e.
  - right. destruct (ok response) eqn:Hok.
    + right. destruct (body response) as [e | data] eqn:Hb; [|discriminate].
      now exists response, e.
    + left. now exists response.
Qed.

(** X1: [getConversationHistory] always returns, after one GET of
    [/conversation/history/<session id>] sent without a body and with the
    hook state untouched.  It returns the empty array when the transport
    fails, the [messages] member of the body when that is truthy (an empty
    array is), and the empty array when the member is absent or falsy. *)
Theorem getConversationHistory_defaults_to_empty
    (this : ConversationService.instance) (o : Oracle) (w : World) :
  exists (w' : World) (v : Json),
    run o (ConversationService.getConversationHistory this) w = (w', inr v)
    /\ requests w' = (requests w ++ [historyRequest this])%list
    /\ messages w' = messages w
    /\ (transportFailed (network o (List.length (requests w))) = true -> v = JArr [])
    /\ (forall response data,
           network o (List.length (requests w)) = inr response ->
           ok response = true -> body response = inr data ->
           (forall v', member data (lit "messages") = Some v' -> truthy v' = true -> v = v')
           /\ (absentOrFalsy data (lit "messages") = true -> v = JArr [])).
Proof.
  rewrite service_getConversationHistory_run. cbv zeta. do 2 eexists.
  split; [reflexivity|]. split; [reflexivity|]. split; [reflexivity|].
  unfold historyOutcome. split.
  - intros Hf. apply transportFailed_cases in Hf.
    destruct Hf as [[e ->] | [(response & -> & ->) | (response & e & -> & -> & ->)]];
      reflexivity.
  - intros response data -> -> ->. unfold absentOrFalsy.
    destruct data as [| b | x | s | items | fields];
      cbn [snd member historyOfBody]; try (split; intros; congruence).
    unfold orElse. destruct (lookup (lit "messages") fields) as [m|];
      [destruct (truthy m) eqn:Em|]; cbn [negb]; split; intros; congruence.
Qed.

Lemma getConversationHistory_defaults_to_empty_witness :
  snd (run (Example.answering Example.http500)
         (ConversationService.getConversationHistory Example.service)
         useConversation.initial)
  = inr (JArr []).
Proof.
  destruct (getConversationHistory_defaults_to_empty Example.service
              (Example.answering Example.http500) useConversation.initial)
    as (w' & v & Hrun & _ & _ & Hfail & _).
  rewrite Hrun. cbn [snd]. now rewrite (Hfail eq_refl).
Defined.


Lemma jsstring_eqb_refl (s : jsstring) : jsstring_eqb s s = true.
Proof. unfold jsstring_eqb. now destruct (list_eq_dec N.eq_dec s s). Qed.

Lemma jsstring_eqb_eq (s t : jsstring) : jsstring_eqb s t = true <-> s = t.
Proof.
  unfold jsstring_eqb. destruct (list_eq_dec N.eq_dec s t); split; congruence.
Qed.




(** ** What the replies are *)

Lemma getFallbackResponse_range (rt : Runtime) (message : jsstring) :
  In (ConversationService.getFallbackResponse rt message)
     [Reply.help; Reply.payment; Reply.technical; Reply.feature; Reply.bug; Reply.generic].
Proof.
  unfold ConversationService.getFallbackResponse. cbv zeta.
  repeat match goal with
         | |- context [if ?b then _ else _] => destruct b
         end; cbn [In]; tauto.
Qed.

Lemma getFallbackResponse_truthy (rt : Runtime) (message : jsstring) :
  truthy (JStr (ConversationService.getFallbackResponse rt message)) = true.
Proof.
  pose proof (getFallbackResponse_range rt message) as H. cbn [In] in H.
  destruct H as [<- | [<- | [<- | [<- | [<- | [<- | []]]]]]]; reflexivity.
Qed.

Lemma orElse_truthy (a : option Json) (b : Json) :
  truthy b = true -> truthy (orElse a b) = true.
Proof.
  intros Hb. destruct a as [v|]; cbn [orElse]; [|exact Hb].
  destruct (truthy v) eqn:Ev; [exact Ev | exact Hb].
Qed.

Lemma chatOutcome_truthy (rt : Runtime) (message : jsstring) (answer : Exn + Response) :
  truthy (snd (chatOutcome rt message answer)) = true.
Proof.
  unfold chatOutcome. cbv zeta.
  destruct answer as [e | response]; cbn [snd]; [apply getFallbackResponse_truthy|].
  destruct (ok response); cbn [snd]; [|apply getFallbackResponse_truthy].
  destruct (body response) as [e | data]; cbn [snd]; [apply getFallbackResponse_truthy|].
  destruct data; cbn [snd replyOfBody];
    try apply getFallbackResponse_truthy; try reflexivity.
  apply orElse_truthy, orElse_truthy. reflexivity.
Qed.

Lemma startOutcome_truthy (answer : Exn + Response) :
  truthy (snd (startOutcome answer)) = true.
Proof.
  unfold startOutcome. cbv zeta.
  destruct answer as [e | response]; cbn [snd]; [reflexivity|].
  destruct (ok response); cbn [snd]; [|reflexivity].
  destruct (body response) as [e | data]; cbn [snd]; [reflexivity|].
  destruct data; cbn [snd welcomeOfBody]; try reflexivity.
  apply orElse_truthy. reflexivity.
Qed.

(** X3: whatever the network answers, the two calls that produce an
    assistant message return a truthy value (never an empty string, [null],
    [false] or zero), and when the fallback responder is used its reply is
    one of the six fixed texts. *)
Theorem service_replies_are_truthy
    (rt : Runtime) (this : ConversationService.instance) (o : Oracle)
    (message : jsstring) (context : Json) (w : World) :
  (exists (w' : World) (v : Json),
      run o (ConversationService.sendMessage rt this message context) w = (w', inr v)
      /\ truthy v = true)
  /\ (exists (w' : World) (v : Json),
         run o (ConversationService.startConversation rt this context) w = (w', inr v)
         /\ truthy v = true)
  /\ In (ConversationService.getFallbackResponse rt message)
        [Reply.help; Reply.payment; Reply.technical; Reply.feature; Reply.bug; Reply.generic].
Proof.
  split; [|split].
  - rewrite service_sendMessage_run. cbv zeta. do 2 eexists.
    split; [reflexivity | apply chatOutcome_truthy].
  - rewrite service_startConversation_run. cbv zeta. do 2 eexists.
    split; [reflexivity | apply startOutcome_truthy].
  - apply getFallbackResponse_range.
Qed.

(** ** Sessions of the hook *)

Lemma exchanges_app_bounded (n : nat) (l m : list Msg.t) :
  (List.length l <= n)%nat ->
  exchanges l = true -> exchanges m = true -> exchanges (l ++ m) = true.
Proof.
  revert l. induction n as [|n IH]; intros l Hn Hl Hm.
  - destruct l; [exact Hm | cbn in Hn; lia].
  - destruct l as [|u [|a rest]]; [exact Hm | discriminate Hl |].
    cbn [exchanges app] in *. apply andb_true_iff in Hl. destruct Hl as [Hl Hrest].
    rewrite Hl. cbn [andb]. apply IH; [cbn in Hn; lia | exact Hrest | exact Hm].
Qed.

Lemma exchanges_app (l m : list Msg.t) :
  exchanges l = true -> exchanges m = true -> exchanges (l ++ m) = true.
Proof. apply (exchanges_app_bounded (List.length l)). lia. Qed.

Lemma transcript_app (l m : list Msg.t) :
  transcript l = true -> exchanges m = true -> transcript (l ++ m) = true.
Proof.
  unfold transcript. intros Hl Hm. apply orb_true_iff in Hl. apply orb_true_iff.
  destruct Hl as [Hl | Hl]; [left; now apply exchanges_app|].
  destruct l as [|a rest]; [discriminate|]. right. cbn [app].
  apply andb_true_iff in Hl. destruct Hl as [Ha Hrest]. rewrite Ha. cbn [andb].
  now apply exchanges_app.
Qed.

Section Sessions.

Variable rt : Runtime.
Variable svc : ConversationService.instance.
Variable o : Oracle.

Lemma call_keeps_transcript (c : useConversation.Call) (w : World) :
  transcript (messages w) = true ->
  transcript (messages (fst (run o (useConversation.call rt svc c) w))) = true.
Proof.
  intros Hw.
  destruct c as [content context errors | context errors | | | b];
    cbn [useConversation.call].
  - destruct (trim content) as [|c0 t0] eqn:Et.
    + now rewrite (hook_sendMessage_blank rt svc content context errors w Et).
    + rewrite hook_sendMessage_run by (rewrite Et; discriminate).
      cbv zeta. cbn [fst messages]. rewrite <- app_assoc. cbn [app].
      apply transcript_app; [exact Hw|].
      cbn [exchanges isUser isAi Msg.type Msg.content nonBlank].
      rewrite Et, chatOutcome_truthy. reflexivity.
  - rewrite hook_startConversation_run. cbv zeta. cbn [fst messages].
    unfold transcript. cbn [exchanges isAi Msg.type Msg.content].
    rewrite startOutcome_truthy. reflexivity.
  - rewrite hook_clearConversation_run. reflexivity.
  - rewrite hook_endConversation_run. exact Hw.
  - exact Hw.
Qed.

Lemma runCalls_transcript (calls : list useConversation.Call) (w : World) :
  transcript (messages w) = true ->
  transcript (messages (useConversation.runCalls rt svc o calls w)) = true.
Proof.
  revert w. induction calls as [|c calls IH]; intros w Hw; [exact Hw|].
  cbn [useConversation.runCalls fold_left]. apply IH. now apply call_keeps_transcript.
Qed.

Lemma call_requests (c : useConversation.Call) (w : World) :
  exists news : list Request,
    requests (fst (run o (useConversation.call rt svc c) w)) = (requests w ++ news)%list
    /\ map req_url news = urlsOf svc [c]
    /\ forallb (carriesSession (ConversationService.sessionId svc)) news = true
    /\ forallb (fun r => jsstring_eqb (req_method r) (lit "POST")) news = true.
Proof.
  unfold urlsOf. cbn [flat_map]. rewrite app_nil_r.
  destruct c as [content context errors | context errors | | | b];
    cbn [useConversation.call pathOf].
  - destruct (trim content) as [|c0 t0] eqn:Et; cbn [isEmpty].
    + rewrite (hook_sendMessage_blank rt svc content context errors w Et).
      exists []. cbn. now rewrite app_nil_r.
    + rewrite hook_sendMessage_run by (rewrite Et; discriminate).
      eexists [_]. cbv zeta. cbn [fst requests]. split; [reflexivity|].
      split; [reflexivity|]. split; [|reflexivity].
      cbn [forallb carriesSession chatRequest req_body lookup].
      change (jsstring_eqb (lit "context") (lit "session_id")) with false.
      change (jsstring_eqb (lit "session_id") (lit "session_id")) with true.
      cbv iota. now rewrite jsstring_eqb_refl.
  - rewrite hook_startConversation_run.
    eexists [_]. cbv zeta. cbn [fst requests]. split; [reflexivity|].
    split; [reflexivity|]. split; [|reflexivity].
    cbn [forallb carriesSession startRequest req_body lookup].
    change (jsstring_eqb (lit "context") (lit "session_id")) with false.
    change (jsstring_eqb (lit "session_id") (lit "session_id")) with true.
    cbv iota. now rewrite jsstring_eqb_refl.
  - rewrite hook_clearConversation_run.
    eexists [_]. cbn [fst requests]. split; [reflexivity|].
    split; [reflexivity|]. split; [|reflexivity].
    cbn [forallb carriesSession actionRequest req_body lookup].
    change (jsstring_eqb (lit "timestamp") (lit "session_id")) with false.
    change (jsstring_eqb (lit "session_id") (lit "session_id")) with true.
    cbv iota. now rewrite jsstring_eqb_refl.
  - rewrite hook_endConversation_run.
    eexists [_]. cbn [fst requests afterPost]. split; [reflexivity|].
    split; [reflexivity|]. split; [|reflexivity].
    cbn [forallb carriesSession actionRequest req_body lookup].
    change (jsstring_eqb (lit "timestamp") (lit "session_id")) with false.
    change (jsstring_eqb (lit "session_id") (lit "session_id")) with true.
    cbv iota. now rewrite jsstring_eqb_refl.
  - exists []. cbn. now rewrite app_nil_r.
Qed.

End Sessions.

(** X4: a session of calls made one after the other issues exactly one
    request for each call that reaches the service (none for a blank
    [sendMessage] nor for [setConversationMode]), in the order of the
    calls, whatever the network answers: nothing is retried.  Each request
    is a POST to the base URL of the service followed by the path of the
    call, and its payload names the session of the service. *)
Theorem session_requests
    (rt : Runtime) (svc : ConversationService.instance) (o : Oracle)
    (calls : list useConversation.Call) (w0 : World) :
  exists news : list Request,
    requests (useConversation.runCalls rt svc o calls w0) = (requests w0 ++ news)%list
    /\ map req_url news = urlsOf svc calls
    /\ forallb (carriesSession (ConversationService.sessionId svc)) news = true
    /\ forallb (fun r => jsstring_eqb (req_method r) (lit "POST")) news = true.
Proof.
  revert w0. induction calls as [|c calls IH]; intros w0.
  - exists []. cbn. now rewrite app_nil_r.
  - cbn [useConversation.runCalls fold_left].
    destruct (call_requests rt svc o c w0) as (n1 & H1 & U1 & C1 & P1).
    destruct (IH (fst (run o (useConversation.call rt svc c) w0)))
      as (n2 & H2 & U2 & C2 & P2).
    exists (n1 ++ n2)%list. unfold useConversation.runCalls in H2.
    rewrite H2, H1, <- app_assoc. split; [reflexivity|].
    rewrite map_app, !forallb_app, U1, U2, C1, C2, P1, P2.
    unfold urlsOf. cbn [flat_map]. rewrite app_nil_r. repeat split.
Qed.

(** X5: after any session of settled calls on a mounted hook the message
    sequence is a transcript: at most one welcome message of the
    assistant at its head, then exchanges made of a user message whose
    content is not blank followed at once by an assistant message whose
    content is truthy.  No user message is left unanswered and no bubble
    is empty. *)
Theorem session_transcript
    (rt : Runtime) (svc : ConversationService.instance) (o : Oracle)
    (calls : list useConversation.Call) (w0 : World) :
  transcript (messages (useConversation.runCalls rt svc o calls (useConversation.mount w0)))
  = true.
Proof. apply runCalls_transcript. reflexivity. Qed.

(** X6: [endConversation] of the hook settles normally whatever the
    network answers, having posted once to [/conversation/end]; messages,
    [isLoading] and [conversationMode] are what they were. *)
Theorem endConversation_keeps_local_state
    (rt : Runtime) (svc : ConversationService.instance) (o : Oracle) (w : World) :
  exists (w' : World) (r : Request),
    run o (useConversation.endConversation rt svc) w = (w', inr tt)
    /\ messages w' = messages w
    /\ isLoading w' = isLoading w
    /\ conversationMode w' = conversationMode w
    /\ requests w' = (requests w ++ [r])%list
    /\ req_url r = concat (ConversationService.baseUrl svc) (lit "/conversation/end").
Proof.
  rewrite hook_endConversation_run. do 2 eexists. repeat split.
Qed.

(** X7: the constructor takes the configured URL when there is one and it
    is not empty, and [http://localhost:8000] otherwise, so the base URL
    is never empty; the session id is the one [generateSessionId] makes
    from the first readings of the clock and of the random source. *)
Theorem constructor_defaults (rt : Runtime) (o : Oracle) (w : World) :
  exists (w' : World) (this : ConversationService.instance),
    run o (ConversationService.constructor rt) w = (w', inr this)
    /\ ConversationService.baseUrl this <> []
    /\ (forall u, apiUrl rt = Some u -> u <> [] -> ConversationService.baseUrl this = u)
    /\ (apiUrl rt = None \/ apiUrl rt = Some [] ->
        ConversationService.baseUrl this = lit "http://localhost:8000")
    /\ snd (run o ConversationService.generateSessionId w)
       = inr (ConversationService.sessionId this)
    /\ requests w' = requests w.
Proof.
  unfold ConversationService.constructor, ConversationService.generateSessionId.
  cbn. do 2 eexists. split; [reflexivity|].
  cbn [ConversationService.baseUrl ConversationService.sessionId requests].
  repeat split.
  - destruct (apiUrl rt) as [[|c u]|]; cbn [isEmpty]; discriminate.
  - intros u -> Hu. destruct u; [contradiction | reflexivity].
  - intros [-> | ->]; reflexivity.
Qed.

Lemma constructor_defaults_witness :
  exists this : ConversationService.instance,
    snd (run Example.drawHalf (ConversationService.constructor Example.runtime)
           useConversation.initial) = inr this
    /\ ConversationService.baseUrl this = lit "http://localhost:8000".
Proof.
  destruct (constructor_defaults Example.runtime Example.drawHalf useConversation.initial)
    as (w' & this & Hrun & _ & _ & Hdefault & _).
  exists this. rewrite Hrun. split; [reflexivity|].
  apply Hdefault. left. reflexivity.
Defined.

(** ** The utilities of the widget *)

Lemma detectPageContext_run (rt : Runtime) (page : Page) (o : Oracle) (w : World) :
  run o (Widget.detectPageContext rt page) w
  = (tick 1 w,
     inr (JObj [ (lit "url", JStr (href rt));
                 (lit "title", JStr (title page));
                 (lit "pathname", JStr (pathname page));
                 (lit "searchParams", searchParams page);
                 (lit "userAgent", JStr (userAgent rt));
                 (lit "timestamp", JStr (toISOString rt (clock o (clockReads w))));
                 (lit "pageType", JStr (pageTypeOfPath (pathname page))) ])).
Proof.
  unfold Widget.detectPageContext, pageTypeOfPath. cbn.
  repeat match goal with
         | |- context [includes ?a ?b] => destruct (includes a b); cbn [orb]
         end; reflexivity.
Qed.

Lemma pageTypeOfPath_range (path : jsstring) :
  In (pageTypeOfPath path) [lit "payment"; lit "account"; lit "support"; lit "general"].
Proof.
  unfold pageTypeOfPath.
  repeat match goal with
         | |- context [if ?b then _ else _] => destruct b
         end; cbn [In]; tauto.
Qed.

Lemma pageTypeOfPath_truthy (path : jsstring) :
  truthy (JStr (pageTypeOfPath path)) = true.
Proof.
  pose proof (pageTypeOfPath_range path) as H. cbn [In] in H.
  destruct H as [<- | [<- | [<- | [<- | []]]]]; reflexivity.
Qed.

(** X8: the context [detectPageContext] builds carries a page type that
    the hook reads back unchanged and sends to the backend.  The type is
    decided by the path alone, matched as written (letter case counts):
    "payment" when the path holds [/payment] or [/checkout], whatever else
    it holds; else "account" for [/account] or [/profile]; else "support"
    for [/support] or [/help]; "general" exactly when it holds none of the
    six. *)
Theorem detectPageContext_pageType
    (rt : Runtime) (page : Page) (o : Oracle) (w : World) (errors : Json) :
  exists (w' : World) (context : Json) (pageType : jsstring),
    run o (Widget.detectPageContext rt page) w = (w', inr context)
    /\ useConversation.pageTypeOf context = JStr pageType
    /\ member (useConversation.messageContextOf rt context errors) (lit "pageType")
       = Some (JStr pageType)
    /\ In pageType [lit "payment"; lit "account"; lit "support"; lit "general"]
    /\ (includes (pathname page) (lit "/payment") || includes (pathname page) (lit "/checkout")
        = true -> pageType = lit "payment")
    /\ (pageType = lit "general" <->
        existsb (includes (pathname page))
          [lit "/payment"; lit "/checkout"; lit "/account"; lit "/profile";
           lit "/support"; lit "/help"] = false).
Proof.
  rewrite detectPageContext_run. do 3 eexists. split; [reflexivity|].
  assert (Hread : useConversation.pageTypeOf
            (JObj [ (lit "url", JStr (href rt));
                    (lit "title", JStr (title page));
                    (lit "pathname", JStr (pathname page));
                    (lit "searchParams", searchParams page);
                    (lit "userAgent", JStr (userAgent rt));
                    (lit "timestamp", JStr (toISOString rt (clock o (clockReads w))));
                    (lit "pageType", JStr (pageTypeOfPath (pathname page))) ])
          = JStr (pageTypeOfPath (pathname page))).
  { unfold useConversation.pageTypeOf.
    change (lookup (lit "pageType") _) with (Some (JStr (pageTypeOfPath (pathname page)))).
    cbn [orElse]. now rewrite pageTypeOfPath_truthy. }
  split; [exact Hread|]. split.
  - unfold useConversation.messageContextOf. rewrite Hread. reflexivity.
  - split; [apply pageTypeOfPath_range|]. unfold pageTypeOfPath. cbn [existsb]. split.
    + intros ->. reflexivity.
    + repeat match goal with
             | |- context [includes ?a ?b] => destruct (includes a b); cbn [orb]
             end; split; intros H; try reflexivity; try discriminate;
        apply lit_inj in H; discriminate.
Qed.

Lemma detectPageContext_pageType_witness :
  exists (w' : World) (context : Json),
    run Example.offline
      (Widget.detectPageContext Example.runtime
         (mkPage (lit "Pay") (lit "/account/payment/cards") (JObj []) (fun _ => None)))
      useConversation.initial = (w', inr context)
    /\ useConversation.pageTypeOf context = JStr (lit "payment").
Proof.
  destruct (detectPageContext_pageType Example.runtime
              (mkPage (lit "Pay") (lit "/account/payment/cards") (JObj []) (fun _ => None))
              Example.offline useConversation.initial JNull)
    as (w' & context & pageType & Hrun & Hread & _ & _ & Hpay & _).
  exists w', context. split; [exact Hrun|]. rewrite Hread. f_equal. apply Hpay.
  vm_compute. reflexivity.
Defined.

Lemma tick_0 (w : World) : tick 0 w = w.
Proof. now destruct w. Qed.

Lemma tick_S (n : nat) (w : World) : tick n (tick 1 w) = tick (S n) w.
Proof. unfold tick. cbn. f_equal. lia. Qed.

Lemma getProp_not_null (data : Json) (key : jsstring) :
  isNull data = false -> getProp data key = inr (member data key).
Proof. now destruct data. Qed.

Lemma recentErrors_run (page : Page) (o : Oracle) (errors : list Json) (w : World) :
  forallb (fun e => negb (isNull e)) errors = true ->
  run o (Widget.recentErrors page errors) w
  = (tick (List.length errors) w, inr (recentAt page o (clockReads w) errors)).
Proof.
  revert w. induction errors as [|error rest IH]; intros w H.
  - cbn. now rewrite tick_0.
  - cbn [forallb] in H. apply andb_true_iff in H. destruct H as [He Hrest].
    apply negb_true_iff in He.
    cbn [Widget.recentErrors bind Monad_Prog].
    rewrite (getProp_not_null error _ He). cbn [await bindProg].
    cbn [trigger bindProg run perform]. rewrite run_bind, (IH _ Hrest).
    cbn [clockReads List.length recentAt]. unfold isRecent.
    change (mkWorld (messages w) (isLoading w) (conversationMode w) (requests w)
              (log w) (S (clockReads w)) (randomReads w)) with (tick 1 w).
    rewrite tick_S.
    destruct (dateValue page (member error (lit "timestamp"))) as [t|];
      [destruct (timeClip (clock o (clockReads w) - 60000)) as [limit|];
       [destruct (limit <? t)%Z|]|]; reflexivity.
Qed.

Lemma getContextualSuggestions_run
    (page : Page) (o : Oracle) (context : Json) (errors : list Json) (w : World) :
  isNull context = false ->
  forallb (fun e => negb (isNull e)) errors = true ->
  run o (Widget.getContextualSuggestions page context errors) w
  = (tick (List.length errors) w,
     inr (suggestionsFrom (member context (lit "pageType"))
            (recentAt page o (clockReads w) errors))).
Proof.
  intros Hc He. unfold Widget.getContextualSuggestions. cbn [bind Monad_Prog].
  rewrite (getProp_not_null context _ Hc). cbn [await bindProg].
  rewrite run_bind. unfold suggestionsFrom, pageSuggestions.
  destruct errors as [|error rest].
  - cbn [ret Monad_Prog run recentAt List.length]. rewrite tick_0, app_nil_r. reflexivity.
  - rewrite run_bind, (recentErrors_run page o _ w He). cbn [run].
    destruct (recentAt page o (clockReads w) (error :: rest)); [|reflexivity].
    now rewrite app_nil_r.
Qed.

Lemma suggestionsFrom_shape (pageType : option Json) (recent : list Json) :
  let l := suggestionsFrom pageType recent in
  l <> [] /\ (List.length l = 3 \/ List.length l = 4 \/ List.length l = 6)%nat.
Proof.
  unfold suggestionsFrom, pageSuggestions.
  destruct (strictEq pageType (lit "payment"));
    [|destruct (strictEq pageType (lit "account"));
      [|destruct (strictEq pageType (lit "support"))]];
    destruct recent; cbn; (split; [discriminate | lia]).
Qed.

(** X9: [getContextualSuggestions] throws on a [null] context; with a
    context and entries that are not [null] it returns; and whenever it
    returns, the list is not empty: three, four or six suggestions. *)
Theorem getContextualSuggestions_never_empty
    (page : Page) (o : Oracle) (context : Json) (errors : list Json) (w : World) :
  (context = JNull ->
   exists e, snd (run o (Widget.getContextualSuggestions page context errors) w) = inl e)
  /\ (isNull context = false -> forallb (fun e => negb (isNull e)) errors = true ->
      exists l, snd (run o (Widget.getContextualSuggestions page context errors) w) = inr l)
  /\ (forall l,
         snd (run o (Widget.getContextualSuggestions page context errors) w) = inr l ->
         l <> []
         /\ (List.length l = 3 \/ List.length l = 4 \/ List.length l = 6)%nat).
Proof.
  split; [|split].
  - intros ->. cbn. eexists. reflexivity.
  - intros Hc He. rewrite (getContextualSuggestions_run page o context errors w Hc He).
    eexists. reflexivity.
  - intros l. unfold Widget.getContextualSuggestions. cbn [bind Monad_Prog].
    destruct (isNull context) eqn:Hc.
    + destruct context; try discriminate Hc. cbn. discriminate.
    + rewrite (getProp_not_null context _ Hc). cbn [await bindProg].
      rewrite run_bind.
      destruct errors as [|error rest].
      * cbn [ret Monad_Prog run snd]. intros H. injection H as <-.
        pose proof (suggestionsFrom_shape (member context (lit "pageType")) []) as S.
        unfold suggestionsFrom, pageSuggestions in S. rewrite app_nil_r in S. exact S.
      * rewrite run_bind.
        destruct (run o (Widget.recentErrors page (error :: rest)) w) as [w' [e | recent]];
          [discriminate|].
        cbn [run snd]. intros H. injection H as <-.
        pose proof (suggestionsFrom_shape (member context (lit "pageType")) recent) as S.
        unfold suggestionsFrom, pageSuggestions in S.
        destruct recent; [rewrite app_nil_r in S|]; exact S.
Qed.

Lemma getContextualSuggestions_never_empty_witness :
  exists l,
    snd (run Example.offline
           (Widget.getContextualSuggestions
              (mkPage (lit "Home") (lit "/") (JObj []) (fun _ => None))
              (JObj [(lit "pageType", JStr (lit "general"))]) [])
           useConversation.initial) = inr l
    /\ l <> [].
Proof.
  destruct (getContextualSuggestions_never_empty
              (mkPage (lit "Home") (lit "/") (JObj []) (fun _ => None)) Example.offline
              (JObj [(lit "pageType", JStr (lit "general"))]) [] useConversation.initial)
    as (_ & Hret & Hshape).
  destruct (Hret eq_refl eq_refl) as [l Hl].
  exists l. split; [exact Hl | exact (proj1 (Hshape l Hl))].
Defined.

Lemma recentAt_stale (page : Page) (o : Oracle) (limit : Z) (errors : list Json) (c : nat) :
  (forall n, (limit + 60000 <= clock o n)%Z) ->
  forallb (staleAt page limit) errors = true ->
  recentAt page o c errors = [].
Proof.
  intros Hclock. revert c. induction errors as [|error rest IH]; intros c H; [reflexivity|].
  cbn [forallb] in H. apply andb_true_iff in H. destruct H as [He Hrest].
  cbn [recentAt]. rewrite (IH (S c) Hrest).
  unfold staleAt in He. apply andb_true_iff in He. destruct He as [_ He].
  unfold isRecent.
  destruct (dateValue page (member error (lit "timestamp"))) as [t|]; [|reflexivity].
  destruct (timeClip (clock o c - 60000)) as [l|] eqn:El; [|reflexivity].
  unfold timeClip in El.
  destruct (Z.abs (clock o c - 60000) <=? 8640000000000000)%Z; [|discriminate].
  injection El as <-. apply Z.leb_le in He. specialize (Hclock c).
  replace (clock o c - 60000 <? t)%Z with false; [reflexivity|].
  symmetry. apply Z.ltb_ge. lia.
Qed.

Lemma staleAt_not_null (page : Page) (limit : Z) (errors : list Json) :
  forallb (staleAt page limit) errors = true ->
  forallb (fun e => negb (isNull e)) errors = true.
Proof.
  induction errors as [|error rest IH]; [reflexivity|]. cbn [forallb].
  rewrite !andb_true_iff. unfold staleAt at 1. rewrite andb_true_iff.
  intros [[He _] Hrest]. split; [exact He | now apply IH].
Qed.

(** X10: entries of [errors] dated a minute or more before every reading
    of the clock (exactly one minute old included), or whose date is not
    valid, do not count: the suggestions are those of a call without
    errors. *)
Theorem getContextualSuggestions_ignores_stale_errors
    (page : Page) (o : Oracle) (context : Json) (errors : list Json) (w : World)
    (limit : Z) :
  (forall n, (limit + 60000 <= clock o n)%Z) ->
  forallb (staleAt page limit) errors = true ->
  snd (run o (Widget.getContextualSuggestions page context errors) w)
  = snd (run o (Widget.getContextualSuggestions page context []) w).
Proof.
  intros Hclock Hstale. destruct (isNull context) eqn:Hc.
  - destruct context; try discriminate Hc. reflexivity.
  - rewrite (getContextualSuggestions_run page o context errors w Hc
               (staleAt_not_null page limit errors Hstale)).
    rewrite (getContextualSuggestions_run page o context [] w Hc eq_refl).
    cbn [snd recentAt]. now rewrite (recentAt_stale page o limit errors _ Hclock Hstale).
Qed.

Lemma recentAt_dated (page : Page) (o : Oracle) (latest : Z) (errors : list Json) (c : nat) :
  (forall n, (0 <= clock o n <= latest)%Z) ->
  (latest <= 8640000000000000)%Z ->
  existsb (datedAfter page (latest - 60000)) errors = true ->
  recentAt page o c errors <> [].
Proof.
  intros Hclock Hmax. revert c. induction errors as [|error rest IH]; intros c H;
    [discriminate|].
  cbn [existsb] in H. cbn [recentAt].
  destruct (isRecent page error (clock o c)) eqn:Er; [discriminate|].
  apply orb_true_iff in H. destruct H as [H | H]; [|now apply IH].
  exfalso. unfold datedAfter in H. unfold isRecent in Er.
  destruct (dateValue page (member error (lit "timestamp"))) as [t|]; [|discriminate].
  specialize (Hclock c). unfold timeClip in Er.
  replace (Z.abs (clock o c - 60000) <=? 8640000000000000)%Z with true in Er
    by (symmetry; apply Z.leb_le; lia).
  apply Z.ltb_lt in H. apply Z.ltb_ge in Er. lia.
Qed.

(** X11: when one entry of [errors] is dated less than a minute before
    the latest instant the clock can read, the three suggestions about
    technical issues come after those of the page, and the default
    suggestions are not shown. *)
Theorem getContextualSuggestions_recent_error
    (page : Page) (o : Oracle) (context : Json) (errors : list Json) (w : World)
    (latest : Z) :
  (forall n, (0 <= clock o n <= latest)%Z) ->
  (latest <= 8640000000000000)%Z ->
  isNull context = false ->
  forallb (fun e => negb (isNull e)) errors = true ->
  existsb (datedAfter page (latest - 60000)) errors = true ->
  snd (run o (Widget.getContextualSuggestions page context errors) w)
  = inr (pageSuggestions (member context (lit "pageType")) ++ Widget.errorSuggestions)%list.
Proof.
  intros Hclock Hmax Hc He Hrecent.
  rewrite (getContextualSuggestions_run page o context errors w Hc He). cbn [snd].
  pose proof (recentAt_dated page o latest errors (clockReads w) Hclock Hmax Hrecent) as Hr.
  unfold suggestionsFrom. destruct (recentAt page o (clockReads w) errors); [contradiction|].
  cbv zeta. unfold pageSuggestions.
  destruct (strictEq (member context (lit "pageType")) (lit "payment"));
    [|destruct (strictEq (member context (lit "pageType")) (lit "account"));
      [|destruct (strictEq (member context (lit "pageType")) (lit "support"))]];
    reflexivity.
Qed.

(** X12: the suggestions computed when the widget mounts never come from
    errors: [detectErrors] has just returned an empty array, so the effect
    sets [errors] to the empty array and the suggestions to the three of
    the page type of the path, or to the four default ones on a general
    page; with context detection disabled it sets nothing.  It issues no
    request. *)
Theorem detectContextEffect_suggestions
    (rt : Runtime) (page : Page) (o : Oracle) (w : World) :
  (exists (w' : World) (context : Json),
      run o (Widget.detectContextEffect rt page true) w
      = (w', inr (Some (context, [],
                        suggestionsFrom (Some (JStr (pageTypeOfPath (pathname page)))) [])))
      /\ useConversation.pageTypeOf context = JStr (pageTypeOfPath (pathname page))
      /\ requests w' = requests w)
  /\ run o (Widget.detectContextEffect rt page false) w = (w, inr None).
Proof.
  split; [|reflexivity].
  unfold Widget.detectContextEffect. cbn [bind Monad_Prog].
  rewrite run_bind, detectPageContext_run.
  rewrite run_bind, getContextualSuggestions_run by reflexivity.
  cbn [run trigger bindProg perform]. do 2 eexists. split; [reflexivity|]. split.
  - unfold useConversation.pageTypeOf.
    change (lookup (lit "pageType") _) with (Some (JStr (pageTypeOfPath (pathname page)))).
    cbn [orElse]. now rewrite pageTypeOfPath_truthy.
  - reflexivity.
Qed.

Lemma getContextualSuggestions_ignores_stale_errors_witness :
  snd (run Example.offline
         (Widget.getContextualSuggestions ExamplePage.home
            (JObj [(lit "pageType", JStr (lit "general"))])
            [ExamplePage.errorAt 1699999940000])
         useConversation.initial)
  = inr Widget.defaultSuggestions.
Proof.
  rewrite (getContextualSuggestions_ignores_stale_errors ExamplePage.home Example.offline
             (JObj [(lit "pageType", JStr (lit "general"))])
             [ExamplePage.errorAt 1699999940000] useConversation.initial 1699999940000).
  - reflexivity.
  - intros n. unfold Example.offline, Example.clockFrom, clock. lia.
  - vm_compute. reflexivity.
Defined.

Lemma getContextualSuggestions_recent_error_witness :
  snd (run Example.drawHalf
         (Widget.getContextualSuggestions ExamplePage.checkout
            (JObj [(lit "pageType", JStr (lit "payment"))])
            [ExamplePage.errorAt 1699999940000; ExamplePage.errorAt 1699999999000])
         useConversation.initial)
  = inr (Widget.paymentSuggestions ++ Widget.errorSuggestions)%list.
Proof.
  rewrite (getContextualSuggestions_recent_error ExamplePage.checkout Example.drawHalf
             (JObj [(lit "pageType", JStr (lit "payment"))])
             [ExamplePage.errorAt 1699999940000; ExamplePage.errorAt 1699999999000]
             useConversation.initial 1700000000000).
  - reflexivity.
  - intros n. unfold Example.drawHalf, clock. lia.
  - lia.
  - reflexivity.
  - reflexivity.
  - vm_compute. reflexivity.
Defined.

(** ** The handlers of the widget *)

Lemma trimStart_head (s : jsstring) (c : N) (t : jsstring) :
  trimStart s = c :: t -> isWhiteSpace c = false.
Proof.
  induction s as [|a s IH]; cbn [trimStart]; [discriminate|].
  destruct (isWhiteSpace a) eqn:Ea; [exact IH|].
  intros H. injection H as <- _. exact Ea.
Qed.

Lemma trimStart_trimStart (s : jsstring) : trimStart (trimStart s) = trimStart s.
Proof.
  destruct (trimStart s) as [|c t] eqn:E; [reflexivity|].
  cbn [trimStart]. now rewrite (trimStart_head s c t E).
Qed.

Lemma trimStart_before_black (l m : jsstring) (c : N) :
  isWhiteSpace c = false ->
  trimStart (l ++ c :: m) = (trimStart l ++ c :: m)%list.
Proof.
  intros Hc. induction l as [|a l IH]; cbn [app trimStart].
  - now rewrite Hc.
  - destruct (isWhiteSpace a); [exact IH | reflexivity].
Qed.

Lemma trimEnd_cons_black (c : N) (t : jsstring) :
  isWhiteSpace c = false -> trimEnd (c :: t) = c :: trimEnd t.
Proof.
  intros Hc. unfold trimEnd. cbn [rev].
  rewrite (trimStart_before_black (rev t) [] c Hc), rev_app_distr. reflexivity.
Qed.

(** Trimming a trimmed string changes nothing. *)
Lemma trim_idempotent (s : jsstring) : trim (trim s) = trim s.
Proof.
  unfold trim. destruct (trimStart s) as [|c t] eqn:E; [reflexivity|].
  pose proof (trimStart_head s c t E) as Hc.
  rewrite (trimEnd_cons_black c t Hc). cbn [trimStart]. rewrite Hc.
  rewrite <- (trimEnd_cons_black c t Hc).
  unfold trimEnd. now rewrite rev_involutive, trimStart_trimStart.
Qed.

(** X13: the key handler of the chat input.  Any key but Enter, and Enter
    with Shift, is left alone.  Enter on a text that is blank is swallowed:
    nothing is sent and the text stays in the input.  Enter on any other
    text empties the input and starts a [sendMessage] whose user message
    holds the text trimmed of its leading and trailing white space. *)
Theorem handleConversationInput_sends_trimmed
    (rt : Runtime) (svc : ConversationService.instance) (o : Oracle)
    (e : KeyEvent) (context errors : Json) (w : World) :
  let h := Widget.handleConversationInput rt svc e context errors in
  (jsstring_eqb (key e) (lit "Enter") && negb (shiftKey e) = false ->
   h = mkHandled false (value e) (Ret tt))
  /\ (jsstring_eqb (key e) (lit "Enter") && negb (shiftKey e) = true ->
      forallb isWhiteSpace (value e) = true ->
      h = mkHandled true (value e) (Ret tt))
  /\ (jsstring_eqb (key e) (lit "Enter") && negb (shiftKey e) = true ->
      forallb isWhiteSpace (value e) = false ->
      defaultPrevented h = true
      /\ newValue h = []
      /\ exists (w' : World) (u a : Msg.t),
          run o (started h) w = (w', inr tt)
          /\ messages w' = (messages w ++ [u; a])%list
          /\ Msg.type u = user
          /\ Msg.content u = JStr (trim (value e))
          /\ Msg.type a = ai).
Proof.
  cbv zeta. unfold Widget.handleConversationInput. split; [|split].
  - intros ->. reflexivity.
  - intros -> Hb. apply trim_nil_iff in Hb. rewrite Hb. reflexivity.
  - intros -> Hb.
    assert (Ht : trim (value e) <> []).
    { intros Ht. apply trim_nil_iff in Ht. congruence. }
    destruct (trim (value e)) as [|c t] eqn:Et; [contradiction|]. cbn [isEmpty negb].
    cbn [defaultPrevented newValue started]. split; [reflexivity|]. split; [reflexivity|].
    rewrite hook_sendMessage_run by (rewrite <- Et, trim_idempotent, Et; exact Ht).
    cbv zeta. do 3 eexists. split; [reflexivity|]. cbn [messages].
    rewrite <- app_assoc. repeat split.
Qed.

Lemma handleConversationInput_sends_trimmed_witness :
  exists (w' : World) (u a : Msg.t),
    run (Example.answering Example.http500)
      (started (Widget.handleConversationInput Example.runtime Example.service
                  (mkKeyEvent (lit "Enter") false (lit "  help me  ")) JNull JNull))
      useConversation.initial = (w', inr tt)
    /\ messages w' = (messages useConversation.initial ++ [u; a])%list
    /\ Msg.type u = user
    /\ Msg.content u = JStr (trim (lit "  help me  "))
    /\ Msg.type a = ai.
Proof.
  apply (proj2 (proj2 (handleConversationInput_sends_trimmed Example.runtime Example.service
                         (Example.answering Example.http500)
                         (mkKeyEvent (lit "Enter") false (lit "  help me  ")) JNull JNull
                         useConversation.initial))).
  - reflexivity.
  - reflexivity.
Defined.

(** X14: the effect that starts the conversation.  It does nothing unless
    the view is the conversation, there is no message and no call is in
    flight.  So after [clearConversation] in the conversation view the
    effect starts over: the sequence is again a single assistant message,
    with a truthy content. *)
Theorem autoStartEffect_restarts_after_clear
    (rt : Runtime) (svc : ConversationService.instance) (o : Oracle)
    (currentView : jsstring) (context errors : Json) (w : World) :
  (jsstring_eqb currentView (lit "conversation") = false
   \/ messages w <> [] \/ isLoading w = true ->
   Widget.autoStartEffect rt svc currentView context errors w = Ret tt)
  /\ (isLoading w = false ->
      exists (w1 w2 : World) (m : Msg.t),
        run o (useConversation.clearConversation rt svc) w = (w1, inr tt)
        /\ run o (Widget.autoStartEffect rt svc (lit "conversation") context errors w1) w1
           = (w2, inr tt)
        /\ messages w2 = [m]
        /\ Msg.type m = ai
        /\ truthy (Msg.content m) = true
        /\ isLoading w2 = false).
Proof.
  split.
  - unfold Widget.autoStartEffect. intros [-> | [H | ->]]; [reflexivity | |].
    + destruct (messages w); [contradiction|]. cbn. now rewrite andb_false_r.
    + cbn. now rewrite andb_false_r.
  - intros Hw. rewrite hook_clearConversation_run. do 3 eexists.
    split; [reflexivity|]. unfold Widget.autoStartEffect. cbn [messages isLoading List.length].
    rewrite Hw. cbn [Nat.eqb negb andb]. rewrite jsstring_eqb_refl. cbn [andb].
    rewrite hook_startConversation_run. cbv zeta. split; [reflexivity|].
    cbn [messages isLoading Msg.type Msg.content]. repeat split.
    apply startOutcome_truthy.
Qed.

Lemma autoStartEffect_restarts_after_clear_witness :
  Widget.autoStartEffect Example.runtime Example.service (lit "feedback") JNull JNull
    useConversation.initial = Ret tt.
Proof.
  apply (proj1 (autoStartEffect_restarts_after_clear Example.runtime Example.service
                  Example.offline (lit "feedback") JNull JNull useConversation.initial)).
  left. reflexivity.
Defined.

Lemma clicks_after_first (acc : jsstring) (clicks : list jsstring) :
  acc <> [] ->
  fold_left Widget.handleSuggestionClick clicks acc
  = (acc ++ flat_map (fun s => 10 :: 10 :: s) clicks)%list.
Proof.
  revert acc. induction clicks as [|s clicks IH]; intros acc Hacc; cbn [fold_left flat_map].
  - now rewrite app_nil_r.
  - rewrite IH.
    + unfold Widget.handleSuggestionClick, concat.
      destruct acc; [contradiction|]. cbn [isEmpty]. now rewrite <- !app_assoc.
    + unfold Widget.handleSuggestionClick, concat. destruct acc; [contradiction|].
      discriminate.
Qed.

(** X15: clicking suggestions one after the other on an empty feedback
    text writes them in the order of the clicks, each after the first
    preceded by a blank line; nothing comes before the first. *)
Theorem handleSuggestionClick_joins (first : jsstring) (clicks : list jsstring) :
  first <> [] ->
  fold_left Widget.handleSuggestionClick (first :: clicks) []
  = (first ++ flat_map (fun s => 10 :: 10 :: s) clicks)%list.
Proof.
  intros Hf. cbn [fold_left].
  change (Widget.handleSuggestionClick [] first) with first.
  now apply clicks_after_first.
Qed.

Lemma handleSuggestionClick_joins_witness :
  fold_left Widget.handleSuggestionClick
    [lit "Found a bug or issue?"; lit "General feedback?"] []
  = (lit "Found a bug or issue?" ++ [10; 10] ++ lit "General feedback?")%list.
Proof.
  rewrite (handleSuggestionClick_joins (lit "Found a bug or issue?") [lit "General feedback?"]).
  - cbn [flat_map]. now rewrite app_nil_r.
  - discriminate.
Defined.

(** ** Error detection *)

Lemma runDetecting_bind {A B : Type} (rt : Runtime) (o : Oracle)
    (p : Prog A) (f : A -> Prog B) (s : World * list Json) :
  Widget.runDetecting rt o (bindProg p f) s =
  match Widget.runDetecting rt o p s with
  | (s', inr a) => Widget.runDetecting rt o (f a) s'
  | (s', inl e) => (s', inl e)
  end.
Proof.
  revert s. induction p as [a | e | X e k IH]; intros s; cbn [bindProg Widget.runDetecting];
    try reflexivity.
  destruct (Widget.performDetecting rt o e s) as [s' x]. apply IH.
Qed.

Lemma runDetecting_catch {A : Type} (rt : Runtime) (o : Oracle)
    (p : Prog A) (h : Exn -> Prog A) (s : World * list Json) :
  Widget.runDetecting rt o (tryCatch p h) s =
  match Widget.runDetecting rt o p s with
  | (s', inr a) => (s', inr a)
  | (s', inl e) => Widget.runDetecting rt o (h e) s'
  end.
Proof.
  revert s. induction p as [a | e | X e k IH]; intros s; cbn [tryCatch Widget.runDetecting];
    try reflexivity.
  destruct (Widget.performDetecting rt o e s) as [s' x]. apply IH.
Qed.

Lemma runDetecting_tryFinally {A : Type} (rt : Runtime) (o : Oracle)
    (p : Prog A) (c : Prog unit) (s : World * list Json) :
  Widget.runDetecting rt o (tryFinally p c) s =
  match Widget.runDetecting rt o p s with
  | (s', r) =>
      match Widget.runDetecting rt o c s' with
      | (s'', inr _) => (s'', r)
      | (s'', inl e) => (s'', inl e)
      end
  end.
Proof.
  revert s. induction p as [a | e | X e k IH]; intros s;
    cbn [tryFinally Widget.runDetecting].
  - rewrite runDetecting_bind.
    destruct (Widget.runDetecting rt o c s) as [s' [e | []]]; reflexivity.
  - rewrite runDetecting_bind.
    destruct (Widget.runDetecting rt o c s) as [s' [e' | []]]; reflexivity.
  - destruct (Widget.performDetecting rt o e s) as [s' x]. apply IH.
Qed.

Ltac finish_detecting :=
  unfold chatRecorded, chatUrl, chatRequest, caught, sendingInfo, receivedInfo; cbn;
  rewrite <- ?app_assoc, ?app_nil_r; reflexivity.

Lemma service_sendMessage_detecting
    (rt : Runtime) (this : ConversationService.instance) (o : Oracle)
    (message : jsstring) (context : Json) (w : World) (errs : list Json) :
  Widget.runDetecting rt o (ConversationService.sendMessage rt this message context) (w, errs)
  = let answer := network o (List.length (requests w)) in
    let out := chatOutcome rt message answer in
    let rec := chatRecorded rt this o (S (clockReads w)) answer in
    ((mkWorld (messages w) (isLoading w) (conversationMode w)
        (requests w ++ [chatRequest rt this message context (clock o (clockReads w))])
        (log w ++ fst out) (List.length rec + S (clockReads w)) (randomReads w),
      (errs ++ rec)%list),
     inr (snd out)).
Proof.
  unfold ConversationService.sendMessage, ConversationService.post, fetch, chatOutcome.
  cbn. destruct (network o (List.length (requests w))) as [e | response]; cbn.
  - finish_detecting.
  - destruct (ok response); cbn; [|finish_detecting].
    destruct (body response) as [e | data]; cbn; [finish_detecting|].
    destruct data as [| b | x | s | items | fields]; cbn; try finish_detecting.
    destruct (lookup (lit "response") fields) as [v|]; cbn.
    + destruct (truthy v); cbn; [finish_detecting|].
      destruct (lookup (lit "message") fields) as [v'|]; cbn; finish_detecting.
    + destruct (lookup (lit "message") fields) as [v'|]; cbn; finish_detecting.
Qed.

(** X16: what the handlers installed by [detectErrors] record of a
    [sendMessage] of the service.  The reply is the one returned without
    detection.  A rejected request leaves two entries on [errors]: a
    [network_error] with the message of the rejection and the URL of the
    chat endpoint, pushed by the replaced [fetch], then a [console_error]
    pushed when the service logs what it caught.  A response whose status
    is outside 200..299 leaves one [console_error], whose message ends
    with the error carrying the status.  A response that is used leaves
    none. *)
Theorem detecting_sendMessage_records
    (rt : Runtime) (this : ConversationService.instance) (o : Oracle)
    (message : jsstring) (context : Json) (w : World) (errs : list Json) :
  exists (w' : World) (errs' : list Json) (v : Json),
    Widget.runDetecting rt o (ConversationService.sendMessage rt this message context)
      (w, errs) = ((w', errs'), inr v)
    /\ snd (run o (ConversationService.sendMessage rt this message context) w) = inr v
    /\ (forall e, network o (List.length (requests w)) = inl e ->
        errs' = (errs ++
                 [ Widget.networkErrorEntry rt e (chatUrl this) (clock o (1 + clockReads w));
                   Widget.consoleErrorEntry rt (lit "Error sending message to LangGraph:") e
                     (clock o (2 + clockReads w)) ])%list)
    /\ (forall response,
           network o (List.length (requests w)) = inr response -> ok response = false ->
           errs' = (errs ++
                    [ Widget.consoleErrorEntry rt (lit "Error sending message to LangGraph:")
                        (ConversationService.httpError response)
                        (clock o (1 + clockReads w)) ])%list
           /\ errorToString (ConversationService.httpError response)
              = concat (lit "Error: HTTP error! status: ") (decimal (status response)))
    /\ (forall response data,
           network o (List.length (requests w)) = inr response -> ok response = true ->
           body response = inr data -> data <> JNull ->
           errs' = errs).
Proof.
  rewrite service_sendMessage_detecting, service_sendMessage_run. cbv zeta.
  do 3 eexists. split; [reflexivity|]. split; [reflexivity|]. unfold chatRecorded.
  split; [|split].
  - intros e ->. reflexivity.
  - intros response -> ->. split; reflexivity.
  - intros response data -> -> -> Hd. destruct data; try contradiction;
      now rewrite app_nil_r.
Qed.

Lemma detecting_sendMessage_records_witness :
  exists (w' : World) (v : Json),
    Widget.runDetecting Example.runtime Example.offline
      (ConversationService.sendMessage Example.runtime Example.service (lit "hi") (JObj []))
      (useConversation.initial, [])
    = ((w', [ Widget.networkErrorEntry Example.runtime (newTypeError (lit "Failed to fetch"))
                (chatUrl Example.service) 1700000000001;
              Widget.consoleErrorEntry Example.runtime
                (lit "Error sending message to LangGraph:")
                (newTypeError (lit "Failed to fetch")) 1700000000002 ]),
       inr v).
Proof.
  destruct (detecting_sendMessage_records Example.runtime Example.service Example.offline
              (lit "hi") (JObj []) useConversation.initial [])
    as (w' & errs' & v & Hrun & _ & Hrejected & _).
  exists w', v. rewrite Hrun.
  rewrite (Hrejected (newTypeError (lit "Failed to fetch")) eq_refl). reflexivity.
Defined.

Lemma hook_sendMessage_detecting
    (rt : Runtime) (svc : ConversationService.instance) (o : Oracle)
    (content : jsstring) (context errors : Json) (w : World) (errs : list Json) :
  trim content <> [] ->
  exists (w' : World) (u a : Msg.t),
    Widget.runDetecting rt o (useConversation.sendMessage rt svc content context errors)
      (w, errs)
    = ((w', (errs ++ chatRecorded rt svc o (3 + clockReads w)
                       (network o (List.length (requests w))))%list), inr tt)
    /\ messages w' = (messages w ++ [u; a])%list
    /\ Msg.type u = user /\ Msg.content u = JStr content /\ Msg.type a = ai
    /\ isLoading w' = false
    /\ requests w'
       = (requests w ++ [chatRequest rt svc content
                           (useConversation.messageContextOf rt context errors)
                           (clock o (2 + clockReads w))])%list.
Proof.
  intros Hc. unfold useConversation.sendMessage.
  destruct (trim content) as [|c0 t0] eqn:Et; [contradiction|]. cbn [isEmpty].
  unfold useConversation.sendMessage_try.
  remember (ConversationService.sendMessage rt svc content
              (useConversation.messageContextOf rt context errors)) as call eqn:Ecall.
  cbn. rewrite runDetecting_tryFinally, runDetecting_catch, runDetecting_bind.
  subst call. rewrite service_sendMessage_detecting. cbn.
  do 3 eexists. split; [reflexivity|]. cbn [messages isLoading requests].
  rewrite <- app_assoc. repeat split.
Qed.

(** X17: the [errors] array is shared between the handlers installed by
    [detectErrors] and the widget, which passes it to every [sendMessage].
    So when the request of one message is rejected, the two entries this
    leaves on the array (X16) are part of the context the next message
    posts to the backend. *)
Theorem detected_errors_reach_next_request
    (rt : Runtime) (svc : ConversationService.instance) (o : Oracle)
    (first next : jsstring) (context : Json) (w : World) (errs : list Json) (e : Exn) :
  trim first <> [] ->
  trim next <> [] ->
  network o (List.length (requests w)) = inl e ->
  let s1 := fst (Widget.runDetecting rt o
                   (useConversation.sendMessage rt svc first context (JArr errs)) (w, errs)) in
  let s2 := fst (Widget.runDetecting rt o
                   (useConversation.sendMessage rt svc next context (JArr (snd s1))) s1) in
  exists (r : Request) (payload sent : Json),
    requests (fst s2) = (requests (fst s1) ++ [r])%list
    /\ req_body r = Some payload
    /\ member payload (lit "context") = Some sent
    /\ member sent (lit "errors")
       = Some (JArr (errs ++
                     [ Widget.networkErrorEntry rt e (chatUrl svc) (clock o (3 + clockReads w));
                       Widget.consoleErrorEntry rt (lit "Error sending message to LangGraph:")
                         e (clock o (4 + clockReads w)) ])).
Proof.
  intros H1 H2 He.
  destruct (hook_sendMessage_detecting rt svc o first context (JArr errs) w errs H1)
    as (w1 & u1 & a1 & Hrun1 & _).
  rewrite Hrun1, He. cbv zeta. cbn [fst snd].
  destruct (hook_sendMessage_detecting rt svc o next context
              (JArr (errs ++ chatRecorded rt svc o (3 + clockReads w) (inl e))) w1
              (errs ++ chatRecorded rt svc o (3 + clockReads w) (inl e)) H2)
    as (w2 & u2 & a2 & Hrun2 & _ & _ & _ & _ & _ & Hreq).
  rewrite Hrun2. cbn [fst]. rewrite Hreq. do 3 eexists.
  split; [reflexivity|]. split; [reflexivity|]. split; reflexivity.
Qed.

Lemma detected_errors_reach_next_request_witness :
  exists (r : Request) (payload sent : Json),
    In r (requests
            (fst (fst (Widget.runDetecting Example.runtime Example.offline
                         (useConversation.sendMessage Example.runtime Example.service
                            (lit "again") JNull
                            (JArr (snd (fst (Widget.runDetecting Example.runtime Example.offline
                                               (useConversation.sendMessage Example.runtime
                                                  Example.service (lit "hi") JNull (JArr []))
                                               (useConversation.initial, []))))))
                         (fst (Widget.runDetecting Example.runtime Example.offline
                                 (useConversation.sendMessage Example.runtime Example.service
                                    (lit "hi") JNull (JArr []))
                                 (useConversation.initial, [])))))))
    /\ req_body r = Some payload
    /\ member payload (lit "context") = Some sent
    /\ member sent (lit "errors")
       = Some (JArr [ Widget.networkErrorEntry Example.runtime
                        (newTypeError (lit "Failed to fetch")) (chatUrl Example.service)
                        1700000000003;
                      Widget.consoleErrorEntry Example.runtime
                        (lit "Error sending message to LangGraph:")
                        (newTypeError (lit "Failed to fetch")) 1700000000004 ]).
Proof.
  destruct (detected_errors_reach_next_request Example.runtime Example.service
              Example.offline (lit "hi") (lit "again") JNull useConversation.initial []
              (newTypeError (lit "Failed to fetch")))
    as (r & payload & sent & Hreq & Hbody & Hctx & Herr).
  - vm_compute. discriminate.
  - vm_compute. discriminate.
  - reflexivity.
  - exists r, payload, sent. split; [|split; [exact Hbody | split; [exact Hctx | exact Herr]]].
    rewrite Hreq. apply in_or_app. right. now left.
Defined.

(** ** Every call settles *)

(** X18: no call of the hook lets an exception out, whatever the network
    answers: [sendMessage], [startConversation], [clearConversation],
    [endConversation] and [setConversationMode] all settle normally. *)
Theorem hook_calls_never_throw
    (rt : Runtime) (svc : ConversationService.instance) (o : Oracle)
    (c : useConversation.Call) (w : World) :
  snd (run o (useConversation.call rt svc c) w) = inr tt.
Proof.
  destruct c as [content context errors | context errors | | | b];
    cbn [useConversation.call].
  - destruct (trim content) as [|c0 t0] eqn:Et.
    + now rewrite (hook_sendMessage_blank rt svc content context errors w Et).
    + now rewrite hook_sendMessage_run by (rewrite Et; discriminate).
  - now rewrite hook_startConversation_run.
  - now rewrite hook_clearConversation_run.
  - now rewrite hook_endConversation_run.
  - reflexivity.
Qed.

(** X19: what is on screen while the request is in flight.
    [clearConversation] empties the messages only once the remote call has
    settled: at its suspension on [fetch] the messages are still the ones
    before the call.  [startConversation] at its suspension has set
    [isLoading] and changed neither the messages nor [conversationMode]. *)
Theorem local_state_while_awaiting
    (rt : Runtime) (svc : ConversationService.instance) (o : Oracle)
    (context errors : Json) (w : World) :
  (exists (w1 : World) (r : Request),
      runSync o (useConversation.clearConversation rt svc) w = (w1, Some r)
      /\ messages w1 = messages w
      /\ isLoading w1 = isLoading w
      /\ req_url r = concat (ConversationService.baseUrl svc) (lit "/conversation/clear"))
  /\ (exists (w1 : World) (r : Request),
         runSync o (useConversation.startConversation rt svc context errors) w = (w1, Some r)
         /\ messages w1 = messages w
         /\ isLoading w1 = true
         /\ conversationMode w1 = conversationMode w
         /\ req_url r = concat (ConversationService.baseUrl svc) (lit "/conversation/start")).
Proof.
  split; do 2 eexists; (split; [reflexivity|]); repeat split.
Qed.

(** ** The earlier revision *)

(** X20: in the earlier revision of the hook a [sendMessage] whose content
    is not blank appends the user message and nothing else: the helper
    that should call the service throws before it does, so no request is
    issued and no assistant message follows; the error is logged and
    [isLoading] is false at the end. *)
Theorem earlier_sendMessage_gets_no_reply
    (rt : Runtime) (o : Oracle) (content : jsstring) (w : World) :
  trim content <> [] ->
  exists (w' : World) (u : Msg.t) (error : Exn),
    run o (EarlierWidget.sendMessage rt content) w = (w', inr tt)
    /\ messages w' = (messages w ++ [u])%list
    /\ Msg.type u = user /\ Msg.content u = JStr content
    /\ requests w' = requests w
    /\ log w' = (log w ++ [ConsoleError (lit "Error sending message:") error;
                           SentryCapture error])%list
    /\ exn_name error = lit "ReferenceError"
    /\ isLoading w' = false.
Proof.
  intros Hc. unfold EarlierWidget.sendMessage.
  destruct (trim content) as [|c0 t0] eqn:Et; [contradiction|]. cbn [isEmpty].
  cbn. do 3 eexists. split; [reflexivity|].
  cbn [messages requests log isLoading]. rewrite <- app_assoc. repeat split.
Qed.

Lemma earlier_sendMessage_gets_no_reply_witness :
  exists (w' : World) (u : Msg.t),
    run (Example.answering (Example.http200 (JObj [(lit "response", JStr (lit "Hello"))])))
      (EarlierWidget.sendMessage Example.runtime (lit "hi")) useConversation.initial
    = (w', inr tt)
    /\ messages w' = [u]
    /\ requests w' = [].
Proof.
  destruct (earlier_sendMessage_gets_no_reply Example.runtime
              (Example.answering (Example.http200 (JObj [(lit "response", JStr (lit "Hello"))])))
              (lit "hi") useConversation.initial)
    as (w' & u & error & Hrun & Hm & _ & _ & Hr & _).
  - vm_compute. discriminate.
  - exists w', u. split; [exact Hrun|]. split; [exact Hm | exact Hr].
Defined.
